(** * Roblox AI chatbot proxy: the chat and compare endpoints of server.js

    A shallow embedding of [src/server.js] (Express handlers in front of the
    OpenRouter chat-completion API).  JavaScript values are an inductive
    type, exceptions are an error monad, and the calls made to the upstream
    service are recorded in a log carried next to every result. *)

From Stdlib Require Import ZArith QArith Qminmax String List Permutation Lia.
From stdpp Require Import base option list sets strings pretty.

Set Warnings "-register-all".
Local Open Scope string_scope.
Local Open Scope Z_scope.

(** ** JavaScript numbers

    A finite double is the rational it denotes; the three non-finite doubles
    are constructors.  Only comparisons, [Math.min] and [Math.max] are taken
    on numbers, and these are exact on doubles. *)

Inductive JsNum : Type :=
  | NaN
  | NegInf
  | Fin (q : Q)
  | PosInf.

Definition num_of_Z (z : Z) : JsNum := Fin (inject_Z z).

(** [a < b] on numbers; false as soon as one side is [NaN]. *)
Definition num_lt (a b : JsNum) : bool :=
  match a, b with
  | NaN, _ | _, NaN => false
  | _, NegInf => false
  | NegInf, _ => true
  | PosInf, _ => false
  | Fin _, PosInf => true
  | Fin p, Fin q => match Qcompare p q with Lt => true | _ => false end
  end.

(** [a === b] on numbers. *)
Definition num_eq (a b : JsNum) : bool :=
  match a, b with
  | NegInf, NegInf | PosInf, PosInf => true
  | Fin p, Fin q => Qeq_bool p q
  | _, _ => false
  end.

Definition is_nan (a : JsNum) : bool :=
  match a with NaN => true | _ => false end.

(** [Math.min(a, b)] and [Math.max(a, b)] on numbers. *)
Definition math_min (a b : JsNum) : JsNum :=
  if is_nan a || is_nan b then NaN else if num_lt b a then b else a.

Definition math_max (a b : JsNum) : JsNum :=
  if is_nan a || is_nan b then NaN else if num_lt a b then b else a.

(** ** JavaScript values, as [JSON.parse] builds them, and [undefined] *)

Inductive JsVal : Type :=
  | VUndef
  | VNull
  | VBool (b : bool)
  | VNum (n : JsNum)
  | VStr (s : string)
  | VArr (l : list JsVal)
  | VObj (kvs : list (string * JsVal)).

(** Own property of an object. *)
Fixpoint assoc (k : string) (kvs : list (string * JsVal)) : option JsVal :=
  match kvs with
  | [] => None
  | (k', v) :: rest => if String.eqb k k' then Some v else assoc k rest
  end.

(** ToBoolean: what [!v], [v || w], [v && w] and [if (v)] test. *)
Definition truthy (v : JsVal) : bool :=
  match v with
  | VUndef | VNull => false
  | VBool b => b
  | VNum n => negb (is_nan n) && negb (num_eq n (num_of_Z 0))
  | VStr s => negb (String.eqb s "")
  | VArr _ | VObj _ => true
  end.

Definition nullish (v : JsVal) : bool :=
  match v with VUndef | VNull => true | _ => false end.

(** [Array.isArray(v)] *)
Definition isArray (v : JsVal) : bool :=
  match v with VArr _ => true | _ => false end.

(** [a || b] *)
Definition js_or (a b : JsVal) : JsVal := if truthy a then a else b.

(** [v === "s"] for a string constant. *)
Definition str_eq (v : JsVal) (s : string) : bool :=
  match v with VStr t => String.eqb t s | _ => false end.

(** [["user", ...].includes(v)] for an array of string constants. *)
Definition includes (l : list string) (v : JsVal) : bool :=
  existsb (str_eq v) l.

(** ** Thrown values

    Everything the program throws or catches is an [Error] object; the
    fields are the properties the handlers read.  [e_response] is the
    [response] property axios puts on an HTTP failure (status and payload). *)

Record JsError : Type := mkError {
  e_message : string;
  e_status : option Z;
  e_code : option string;
  e_data : JsVal;
  e_response : option (Z * JsVal)
}.

(** [new Error(msg)] *)
Definition Error (msg : string) : JsError :=
  {| e_message := msg; e_status := None; e_code := None;
     e_data := VUndef; e_response := None |}.

(** A [TypeError] raised by the engine (V8's wording). *)
Definition TypeError (msg : string) : JsError := Error msg.

Inductive result (A : Type) : Type :=
  | Ok (a : A)
  | Throw (e : JsError).
Arguments Ok {A} a.
Arguments Throw {A} e.

#[global] Instance result_ret : MRet result := fun A a => Ok a.
#[global] Instance result_bind : MBind result := fun A B f m =>
  match m with Ok a => f a | Throw e => Throw e end.

(** [v.k] for a property name [k] that no built-in prototype defines (all
    the names the program reads are such). *)
Definition get (v : JsVal) (k : string) : result JsVal :=
  match v with
  | VUndef =>
      Throw (TypeError ("Cannot read properties of undefined (reading '" +:+ k +:+ "')"))
  | VNull =>
      Throw (TypeError ("Cannot read properties of null (reading '" +:+ k +:+ "')"))
  | VObj kvs => Ok (default VUndef (assoc k kvs))
  | _ => Ok VUndef
  end.

(** [v?.k] *)
Definition get_opt (v : JsVal) (k : string) : JsVal :=
  match v with
  | VObj kvs => default VUndef (assoc k kvs)
  | _ => VUndef
  end.

(** [v[0]] *)
Definition get0 (v : JsVal) : result JsVal :=
  match v with
  | VUndef => Throw (TypeError "Cannot read properties of undefined (reading '0')")
  | VNull => Throw (TypeError "Cannot read properties of null (reading '0')")
  | VArr l => Ok (default VUndef (head l))
  | VStr (String c _) => Ok (VStr (String c ""))
  | VObj kvs => Ok (default VUndef (assoc "0" kvs))
  | _ => Ok VUndef
  end.

(** ** [Array.prototype.join] *)

Section Join.
Variable elem : JsVal -> result string.
Variable sep : string.

(** [Array.prototype.join]: [undefined] and [null] elements give the empty
    string, the others are converted in order. *)
Fixpoint join_elems (l : list JsVal) : result string :=
  match l with
  | [] => Ok ""
  | x :: rest =>
      s ← (match x with VUndef | VNull => Ok "" | _ => elem x end);
      match rest with
      | [] => Ok s
      | _ => r ← join_elems rest; Ok (s +:+ sep +:+ r)
      end
  end.
End Join.

(** ** The upstream service and the log of calls made to it *)

(** The object literal [openRouterRequest]. *)
Record OpenRouterRequest : Type := {
  req_model : JsVal;
  req_messages : JsVal;
  req_max_tokens : JsVal;
  req_temperature : JsVal
}.

(** The arguments of one [axios.post(url, data, { headers, timeout })]. *)
Record PostCall : Type := {
  url : string;
  data : OpenRouterRequest;
  headers : list (string * string);
  timeout : Z
}.

(** How one [axios.post] settles: fulfilled with [response.data] (a 2xx
    answer), rejected with an error that has a [response] (any other
    status), or rejected without one (nothing was received). *)
Inductive AxiosOutcome : Type :=
  | Fulfilled (payload : JsVal)
  | HttpError (status : Z) (payload : JsVal) (msg : string)
  | TransportError (msg : string) (code : option string).

(** A computation that may throw and that may have sent upstream calls. *)
Record Net (A : Type) : Type := mkNet {
  outcome : result A;
  sent : list PostCall
}.
Arguments mkNet {A} outcome sent.
Arguments outcome {A} n.
Arguments sent {A} n.

#[global] Instance Net_ret : MRet Net := fun A a => mkNet (Ok a) [].
#[global] Instance Net_bind : MBind Net := fun A B f m =>
  match outcome m with
  | Ok a => let r := f a in mkNet (outcome r) (sent m ++ sent r)
  | Throw e => mkNet (Throw e) (sent m)
  end.

(** A computation that sends nothing. *)
Definition lift {A} (r : result A) : Net A := mkNet r [].

Definition throw {A} (e : JsError) : Net A := mkNet (Throw e) [].

(** [try { m } catch (error) { h error }] *)
Definition try_catch {A} (m : Net A) (h : JsError -> Net A) : Net A :=
  match outcome m with
  | Ok _ => m
  | Throw e => let r := h e in mkNet (outcome r) (sent m ++ sent r)
  end.

(** ** Configuration read from the environment at start-up *)

Record Config : Type := {
  env_OPENROUTER_API_KEY : option string;
  env_MODEL : option string;
  env_APP_URL : option string
}.

(** Truthiness of a [process.env] entry: set and not empty. *)
Definition env_truthy (o : option string) : bool :=
  match o with Some s => negb (String.eqb s "") | None => false end.

(** [process.env.X || fallback] *)
Definition env_or (o : option string) (fallback : string) : string :=
  match o with
  | Some s => if String.eqb s "" then fallback else s
  | None => fallback
  end.

Definition OPENROUTER_URL : string :=
  "https://openrouter.ai/api/v1/chat/completions".

(** ** Requests and responses of the proxy *)

(** The bindings destructured from [req.body]; an absent field is
    [VUndef]. *)
Record Body : Type := {
  messages : JsVal;
  model : JsVal;
  models : JsVal;
  max_tokens : JsVal;
  temperature : JsVal
}.

(** [res.status(status).json(json)] *)
Record Response : Type := {
  status : Z;
  json : JsVal
}.

Definition error_response (st : Z) (error : string) (msg : JsVal) : Response :=
  {| status := st; json := VObj [("error", VStr error); ("message", msg)] |}.

(** What [callOpenRouter] returns. *)
Record CallResult : Type := {
  message : JsVal;
  usage : JsVal;
  finish_reason : JsVal
}.

(** The elements of an array value ([for ... of], [.map], [.length]). *)
Definition elements (v : JsVal) : list JsVal :=
  match v with VArr l => l | _ => [] end.

(** [!v || !Array.isArray(v) || v.length === 0] *)
Definition not_nonempty_array (v : JsVal) : bool :=
  negb (truthy v) || negb (isArray v) || (length (elements v) =? 0)%nat.

(** [!msg.role || !msg.content] *)
Definition lacks_role_or_content (msg : JsVal) : result bool :=
  role ← get msg "role";
  if negb (truthy role) then Ok true
  else content ← get msg "content"; Ok (negb (truthy content)).

(** ** [Promise.all] over promises that all fulfil

    One slot per promise; the promise of index [i] stores its value in slot
    [i] when it settles; the combined promise resolves, with the slots in
    index order, once no slot is empty.  [order] lists the indices in the
    order in which the promises settle. *)

Section PromiseAll.
Context {A : Type}.

Definition settle (legs : list A) (slots : list (option A)) (i : nat)
  : list (option A) :=
  match legs !! i with
  | Some v => <[i := Some v]> slots
  | None => slots
  end.

Definition settle_all (legs : list A) (order : list nat) : list (option A) :=
  fold_left (settle legs) order (replicate (length legs) None).

(** [None]: some promise has not settled, the [await] is still pending. *)
Definition promise_all (order : list nat) (legs : list A) : option (list A) :=
  mapM id (settle_all legs order).
End PromiseAll.

(** ** server.js *)

(** [Number::toString] and [StringToNumber] (ECMA-262 6.1.6.1.20 and
    7.1.4.1.1) are the engine's; the program only calls them. *)
Class Engine : Type := {
  number_to_string : JsNum -> string;
  string_to_number : string -> JsNum
}.

(** What surrounds the process while one request is served: the
    environment variables, the upstream service (how the [i]-th
    [axios.post] issued for the request settles) and the clock reading
    [new Date().toISOString()] put in a response. *)
Class Environment : Type := {
  cfg : Config;
  axios_post : nat -> PostCall -> AxiosOutcome;
  timestamp : string
}.

Section Server.
Context `{Engine} `{Environment}.

(** *** String and number conversions *)

(** ToString.  A parsed JSON object has no callable property, so an own
    [toString] key leaves OrdinaryToPrimitive without a method to call. *)
Fixpoint to_string (v : JsVal) : result string :=
  match v with
  | VUndef => Ok "undefined"
  | VNull => Ok "null"
  | VBool true => Ok "true"
  | VBool false => Ok "false"
  | VNum n => Ok (number_to_string n)
  | VStr s => Ok s
  | VArr l => join_elems to_string "," l
  | VObj kvs =>
      match assoc "toString" kvs with
      | Some _ => Throw (TypeError "Cannot convert object to primitive value")
      | None => Ok "[object Object]"
      end
  end.

(** [arr.join(sep)] *)
Definition join (l : list JsVal) (sep : string) : result string :=
  join_elems to_string sep l.

(** ToNumber *)
Definition to_number (v : JsVal) : result JsNum :=
  match v with
  | VUndef => Ok NaN
  | VNull => Ok (num_of_Z 0)
  | VBool true => Ok (num_of_Z 1)
  | VBool false => Ok (num_of_Z 0)
  | VNum n => Ok n
  | VStr s => Ok (string_to_number s)
  | VArr _ | VObj _ => s ← to_string v; Ok (string_to_number s)
  end.

(** [v > 0] *)
Definition gt_zero (v : JsVal) : result bool :=
  n ← to_number v; Ok (num_lt (num_of_Z 0) n).

(** [Math.min(v, c)] for a numeric constant [c] *)
Definition Math_min (v : JsVal) (c : JsNum) : result JsNum :=
  n ← to_number v; Ok (math_min n c).

(** *** Configuration and the upstream caller *)

Definition OPENROUTER_API_KEY : option string := env_OPENROUTER_API_KEY cfg.

Definition DEFAULT_MODEL : string :=
  env_or (env_MODEL cfg) "openai/gpt-oss-20b:free".

(** [await axios.post(...)]: the call is logged, then settles as the
    service decides.  No handler reads [status] or [code] from an error
    that has a [response]. *)
Definition post (i : nat) (c : PostCall) : Net JsVal :=
  mkNet
    (match axios_post i c with
     | Fulfilled d => Ok d
     | HttpError st d msg =>
         Throw {| e_message := msg; e_status := None; e_code := None;
                  e_data := VUndef; e_response := Some (st, d) |}
     | TransportError msg code =>
         Throw {| e_message := msg; e_status := None; e_code := code;
                  e_data := VUndef; e_response := None |}
     end)
    [c].

(** The loop of [callOpenRouter] over the messages. *)
Fixpoint validate_each (msgs : list JsVal) : result unit :=
  match msgs with
  | [] => Ok tt
  | msg :: rest =>
      bad ← lacks_role_or_content msg;
      if (bad : bool) then Throw (Error "Each message must have role and content")
      else
        role ← get msg "role";
        if negb (includes ["user"; "assistant"; "system"] role)
        then Throw (Error "Message role must be user, assistant, or system")
        else validate_each rest
  end.

(** The test on [response.data] and the object returned when it passes.
    [choices[0]] is read once here: reading it again gives the same
    value. *)
Definition extract_reply (d : JsVal) : result CallResult :=
  choices ← get d "choices";
  first ← (if truthy choices then get0 choices else Ok choices);
  if truthy first then
    msg ← get first "message";
    content ← get msg "content";
    u ← get d "usage";
    fr ← get first "finish_reason";
    Ok {| message := content; usage := js_or u (VObj []); finish_reason := fr |}
  else Throw (Error "Unexpected response format from OpenRouter").

(** A parameter default: used when the argument is [undefined]. *)
Definition default_arg (v dflt : JsVal) : JsVal :=
  match v with VUndef => dflt | _ => v end.

Definition bearer : string :=
  "Bearer " +:+ default "undefined" OPENROUTER_API_KEY.

Definition request_headers : list (string * string) :=
  [("Authorization", bearer);
   ("Content-Type", "application/json");
   ("HTTP-Referer", env_or (env_APP_URL cfg) "https://your-render-app.onrender.com");
   ("X-Title", "Roblox AI Chatbot")].

(** The arguments of the [axios.post] of the caller. *)
Definition chat_completion_call (messages model maxTokens temperature : JsVal)
  : PostCall :=
  let openRouterRequest :=
    {| req_model := model; req_messages := messages;
       req_max_tokens := maxTokens; req_temperature := temperature |} in
  {| url := OPENROUTER_URL; data := openRouterRequest;
     headers := request_headers; timeout := 60000 |}.

(** [callOpenRouter(messages, model, maxTokens = 1000, temperature = 0.7)];
    [i] numbers the invocation. *)
Definition callOpenRouter (i : nat) (messages model maxTokens temperature : JsVal)
  : Net CallResult :=
  let maxTokens := default_arg maxTokens (VNum (num_of_Z 1000)) in
  let temperature := default_arg temperature (VNum (Fin (7 # 10))) in
  try_catch
    (_ ← lift (if negb (isArray messages) || (length (elements messages) =? 0)%nat
               then Throw (Error "Messages must be a non-empty array")
               else Ok tt);
     _ ← lift (validate_each (elements messages));
     d ← post i (chat_completion_call messages model maxTokens temperature);
     lift (extract_reply d))
    (fun error =>
       match e_response error with
       | Some (st, d) =>
           msg ← lift (to_string (js_or (get_opt (get_opt d "error") "message")
                                        (VStr "OpenRouter API error")));
           throw {| e_message := msg; e_status := Some st; e_code := None;
                    e_data := d; e_response := None |}
       | None => throw error
       end).

(** The message-format loop of the two handlers: [Some r] is the early
    [return] of a response. *)
Fixpoint check_format (msgs : list JsVal) : result (option Response) :=
  match msgs with
  | [] => Ok None
  | msg :: rest =>
      bad ← lacks_role_or_content msg;
      if (bad : bool)
      then Ok (Some (error_response 400 "Invalid message format"
                       (VStr "Each message must have role and content fields")))
      else check_format rest
  end.

(** [max_tokens && max_tokens > 0 ? Math.min(max_tokens, 4000) : 1000] *)
Definition validatedMaxTokens (max_tokens : JsVal) : result JsNum :=
  c ← (if truthy max_tokens then gt_zero max_tokens else Ok false);
  if (c : bool) then Math_min max_tokens (num_of_Z 4000) else Ok (num_of_Z 1000).

(** [temperature !== undefined ? Math.max(0, Math.min(temperature, 2)) : 0.7] *)
Definition validatedTemperature (temperature : JsVal) : result JsNum :=
  match temperature with
  | VUndef => Ok (Fin (7 # 10))
  | _ => m ← Math_min temperature (num_of_Z 2); Ok (math_max (num_of_Z 0) m)
  end.

(** [error.status] as a value, and its truthiness. *)
Definition status_value (st : option Z) : JsVal :=
  match st with Some z => VNum (num_of_Z z) | None => VUndef end.

Definition code_is (error : JsError) (c : string) : bool :=
  match e_code error with Some s => String.eqb s c | None => false end.

(** The branch of the [catch] block of [POST /api/chat] taken when
    [error.status] is truthy. *)
Definition classify_status (st : Z) (d : JsVal) : Response :=
  if st =? 401 then
    error_response 401 "Authentication failed" (VStr "Invalid OpenRouter API key")
  else if st =? 402 then
    error_response 402 "Payment required"
      (VStr "Insufficient credits on OpenRouter account")
  else if st =? 429 then
    error_response 429 "Rate limit exceeded"
      (VStr "Too many requests to OpenRouter API")
  else if st =? 404 then
    error_response 404 "Model not found"
      (VStr "The specified model is not available")
  else if st =? 400 then
    error_response 400 "Bad request"
      (js_or (get_opt (get_opt d "error") "message")
             (VStr "Invalid request to OpenRouter API"))
  else
    error_response st "OpenRouter API error"
      (js_or (get_opt (get_opt d "error") "message")
             (VStr "Unknown error occurred")).

(** The [catch] block of [POST /api/chat]. *)
Definition classify (error : JsError) : Response :=
  if truthy (status_value (e_status error)) then
    classify_status (default 0 (e_status error)) (e_data error)
  else if code_is error "ECONNABORTED" || code_is error "ETIMEDOUT" then
    error_response 504 "Gateway timeout"
      (VStr "Request to OpenRouter API timed out")
  else if code_is error "ECONNREFUSED" || code_is error "ENOTFOUND" then
    error_response 503 "Service unavailable"
      (VStr "Unable to reach OpenRouter API")
  else error_response 500 "Internal server error" (VStr (e_message error)).

(** *** [POST /api/chat] *)

(** [res.json(body)]: status 200. *)
Definition res_json (body : JsVal) : Response := {| status := 200; json := body |}.

Definition invalid_request (msg : string) : Response :=
  error_response 400 "Invalid request" (VStr msg).

Definition configuration_error : Response :=
  error_response 500 "Server configuration error"
    (VStr "OpenRouter API key not configured").

(** [model || DEFAULT_MODEL] *)
Definition selectedModel (model : JsVal) : JsVal :=
  js_or model (VStr DEFAULT_MODEL).

(** The response sent once the caller has returned. *)
Definition chat_reply (selectedModel : JsVal) (r : CallResult) : Response :=
  res_json (VObj [("success", VBool true);
                  ("message", message r);
                  ("model", selectedModel);
                  ("usage", usage r);
                  ("finish_reason", finish_reason r)]).

(** The [try] block. *)
Definition chat_try (body : Body) : Net Response :=
  let messages := messages body in
  if not_nonempty_array messages
  then mret (invalid_request "Messages array is required and must not be empty")
  else
    early ← lift (check_format (elements messages));
    match early with
    | Some r => mret r
    | None =>
        if negb (env_truthy OPENROUTER_API_KEY) then mret configuration_error
        else
          let selectedModel := selectedModel (model body) in
          validatedMaxTokens ← lift (validatedMaxTokens (max_tokens body));
          validatedTemperature ← lift (validatedTemperature (temperature body));
          (* console.log(`... Model: ${selectedModel}, Messages: ${messages.length}`) *)
          _ ← lift (to_string selectedModel);
          r ← callOpenRouter 0 messages selectedModel
                (VNum validatedMaxTokens) (VNum validatedTemperature);
          mret (chat_reply selectedModel r)
    end.

Definition chat (body : Body) : Net Response :=
  try_catch (chat_try body) (fun error => mret (classify error)).

(** *** [POST /api/compare] *)

(** [error.message || 'Request failed'] *)
Definition leg_message (error : JsError) : JsVal :=
  js_or (VStr (e_message error)) (VStr "Request failed").

(** [error.status || 'unknown'] *)
Definition leg_error_type (error : JsError) : JsVal :=
  js_or (status_value (e_status error)) (VStr "unknown").

(** The [.then] and [.catch] callbacks of one leg. *)
Definition leg_then (model : JsVal) (r : CallResult) : JsVal :=
  VObj [("success", VBool true);
        ("model", model);
        ("message", message r);
        ("usage", usage r);
        ("finish_reason", finish_reason r)].

Definition leg_catch (model : JsVal) (error : JsError) : JsVal :=
  VObj [("success", VBool false);
        ("model", model);
        ("message", leg_message error);
        ("error", VBool true);
        ("error_type", leg_error_type error)].

(** [callOpenRouter(...).then(...).catch(...)]: the value the promise of
    leg [i] is fulfilled with. *)
Definition leg_item (messages mt temp : JsVal) (i : nat) (model : JsVal) : JsVal :=
  match outcome (callOpenRouter i messages model mt temp) with
  | Ok r => leg_then model r
  | Throw error => leg_catch model error
  end.

Definition leg (messages mt temp : JsVal) (i : nat) (model : JsVal) : Net JsVal :=
  mkNet (Ok (leg_item messages mt temp i model))
        (sent (callOpenRouter i messages model mt temp)).

(** [models.map(model => ...)]: the legs are started in index order. *)
Fixpoint launch (messages mt temp : JsVal) (i : nat) (models : list JsVal)
  : Net (list JsVal) :=
  match models with
  | [] => mret []
  | model :: rest =>
      r ← leg messages mt temp i model;
      rs ← launch messages mt temp (S i) rest;
      mret (r :: rs)
  end.

(** The response sent once [Promise.all] has resolved. *)
Definition compare_reply (results : list JsVal) : Response :=
  res_json (VObj [("success", VBool true);
                  ("results", VArr results);
                  ("timestamp", VStr timestamp)]).

(** The [try] block; [order] is the order in which the legs settle and
    [None] means that the handler is still waiting on [Promise.all]. *)
Definition compare_try (body : Body) (order : list nat) : Net (option Response) :=
  let messages := messages body in
  let models := models body in
  if not_nonempty_array messages
  then mret (Some (invalid_request "Messages array is required and must not be empty"))
  else if not_nonempty_array models
  then mret (Some (invalid_request "Models array is required for compare mode"))
  else if (5 <? length (elements models))%nat
  then mret (Some (error_response 400 "Too many models"
                     (VStr "Maximum 5 models allowed in compare mode")))
  else
    early ← lift (check_format (elements messages));
    match early with
    | Some r => mret (Some r)
    | None =>
        if negb (env_truthy OPENROUTER_API_KEY) then mret (Some configuration_error)
        else
          validatedMaxTokens ← lift (validatedMaxTokens (max_tokens body));
          validatedTemperature ← lift (validatedTemperature (temperature body));
          (* console.log(`... Models: ${models.join(', ')}, ...`) *)
          _ ← lift (join (elements models) ", ");
          promises ← launch messages (VNum validatedMaxTokens)
                        (VNum validatedTemperature) 0 (elements models);
          mret (compare_reply <$> promise_all order promises)
    end.

Definition compare (body : Body) (order : list nat) : Net (option Response) :=
  try_catch (compare_try body order)
    (fun error =>
       mret (Some (error_response 500 "Internal server error"
                     (VStr (e_message error))))).

End Server.

(** ** The earlier server ([src/unnamed/part_001])

    The same two endpoints before the caller validated the conversation and
    before the handlers normalised the parameters and bounded the model
    list.  What the compare endpoint runs is embedded here; the chat endpoint
    of that server follows the sample requests. *)

Module Earlier.
Section Server.
Context `{Engine} `{Environment}.

(** The test on [response.data]; no [finish_reason] yet. *)
Definition extract_reply (d : JsVal) : result (JsVal * JsVal) :=
  choices ← get d "choices";
  first ← (if truthy choices then get0 choices else Ok choices);
  if truthy first then
    msg ← get first "message";
    content ← get msg "content";
    u ← get d "usage";
    Ok (content, js_or u (VObj []))
  else Throw (Error "Unexpected response format from OpenRouter").

(** [callOpenRouter(messages, model, maxTokens = 1000, temperature = 0.7)]:
    no validation and no [catch], so an axios error leaves as it is. *)
Definition callOpenRouter (i : nat) (messages model maxTokens temperature : JsVal)
  : Net (JsVal * JsVal) :=
  let maxTokens := default_arg maxTokens (VNum (num_of_Z 1000)) in
  let temperature := default_arg temperature (VNum (Fin (7 # 10))) in
  let openRouterRequest :=
    {| req_model := model; req_messages := messages;
       req_max_tokens := maxTokens; req_temperature := temperature |} in
  d ← post i {| url := OPENROUTER_URL; data := openRouterRequest;
                headers := request_headers; timeout := 30000 |};
  lift (extract_reply d).

(** [error.response?.data?.error?.message || error.message || 'Request failed'] *)
Definition leg_message (error : JsError) : JsVal :=
  let upstream :=
    match e_response error with
    | Some (_, d) => get_opt (get_opt d "error") "message"
    | None => VUndef
    end in
  js_or (js_or upstream (VStr (e_message error))) (VStr "Request failed").

Definition leg_item (messages mt temp : JsVal) (i : nat) (model : JsVal) : JsVal :=
  match outcome (callOpenRouter i messages model mt temp) with
  | Ok (msg, u) =>
      VObj [("success", VBool true); ("model", model);
            ("message", msg); ("usage", u)]
  | Throw error =>
      VObj [("success", VBool false); ("model", model);
            ("message", leg_message error); ("error", VBool true)]
  end.

Definition leg (messages mt temp : JsVal) (i : nat) (model : JsVal) : Net JsVal :=
  mkNet (Ok (leg_item messages mt temp i model))
        (sent (callOpenRouter i messages model mt temp)).

Fixpoint launch (messages mt temp : JsVal) (i : nat) (models : list JsVal)
  : Net (list JsVal) :=
  match models with
  | [] => mret []
  | model :: rest =>
      r ← leg messages mt temp i model;
      rs ← launch messages mt temp (S i) rest;
      mret (r :: rs)
  end.

Definition compare_reply (results : list JsVal) : Response :=
  res_json (VObj [("success", VBool true); ("results", VArr results)]).

Definition compare_try (body : Body) (order : list nat) : Net (option Response) :=
  let messages := messages body in
  let models := models body in
  if not_nonempty_array messages
  then mret (Some (invalid_request "Messages array is required"))
  else if not_nonempty_array models
  then mret (Some (invalid_request "Models array is required for compare mode"))
  else if negb (env_truthy OPENROUTER_API_KEY) then mret (Some configuration_error)
  else
    (* console.log(`... Models: ${models.join(', ')}, ...`) *)
    _ ← lift (join (elements models) ", ");
    promises ← launch messages (max_tokens body) (temperature body) 0 (elements models);
    mret (compare_reply <$> promise_all order promises).

Definition compare (body : Body) (order : list nat) : Net (option Response) :=
  try_catch (compare_try body order)
    (fun error =>
       mret (Some (error_response 500 "Internal server error"
                     (VStr (e_message error))))).

End Server.
End Earlier.

(** ** Vocabulary of the properties *)

(** The error kinds of the specification.  A response carries its kind as
    the [error] label; the bound on the model list has a label of its own
    and is a rejection of the request. *)
Inductive ErrorKind : Type :=
  | InvalidRequest
  | InvalidMessage
  | ConfigurationError
  | AuthenticationFailed
  | PaymentRequired
  | RateLimitExceeded
  | ModelNotFound
  | BadRequest
  | GatewayTimeout
  | ServiceUnavailable
  | UpstreamError
  | InternalError.

Definition labels : list (string * ErrorKind) :=
  [("Invalid request", InvalidRequest);
   ("Too many models", InvalidRequest);
   ("Invalid message format", InvalidMessage);
   ("Server configuration error", ConfigurationError);
   ("Authentication failed", AuthenticationFailed);
   ("Payment required", PaymentRequired);
   ("Rate limit exceeded", RateLimitExceeded);
   ("Model not found", ModelNotFound);
   ("Bad request", BadRequest);
   ("Gateway timeout", GatewayTimeout);
   ("Service unavailable", ServiceUnavailable);
   ("OpenRouter API error", UpstreamError);
   ("Internal server error", InternalError)].

Fixpoint kind_of_label (l : list (string * ErrorKind)) (label : string)
  : option ErrorKind :=
  match l with
  | [] => None
  | (s, k) :: rest => if String.eqb label s then Some k else kind_of_label rest label
  end.

Definition error_kind (r : Response) : option ErrorKind :=
  match get_opt (json r) "error" with
  | VStr label => kind_of_label labels label
  | _ => None
  end.

(** The table of the specification: the kind of a failure that carries an
    upstream status. *)
Definition status_table : list (Z * ErrorKind) :=
  [(401, AuthenticationFailed);
   (402, PaymentRequired);
   (404, ModelNotFound);
   (429, RateLimitExceeded);
   (400, BadRequest)].

Fixpoint kind_of_status (table : list (Z * ErrorKind)) (st : Z) : ErrorKind :=
  match table with
  | [] => UpstreamError
  | (z, k) :: rest => if st =? z then k else kind_of_status rest st
  end.



(** A response whose body says [success: true]. *)
Definition is_success (r : Response) : bool :=
  match get_opt (json r) "success" with VBool true => true | _ => false end.

(** A message with a truthy [role] and a truthy [content]. *)
Definition has_role_and_content (msg : JsVal) : bool :=
  truthy (get_opt msg "role") && truthy (get_opt msg "content").

(** A message whose [role] is one of the three accepted strings. *)
Definition role_allowed (msg : JsVal) : bool :=
  includes ["user"; "assistant"; "system"] (get_opt msg "role").

(** A message the upstream caller lets through. *)
Definition valid_message (msg : JsVal) : bool :=
  has_role_and_content msg && role_allowed msg.

(** A conversation the upstream caller lets through. *)
Definition valid_conversation (messages : JsVal) : bool :=
  isArray messages && negb (length (elements messages) =? 0)%nat
  && forallb valid_message (elements messages).

(** A conversation the validation of the handlers lets through: a
    non-empty array of messages with a role and a content. *)
Definition accepted_conversation (messages : JsVal) : bool :=
  isArray messages && negb (length (elements messages) =? 0)%nat
  && forallb has_role_and_content (elements messages).

(** A value that converts to a string and to a number without raising:
    no object with an own [toString] key, directly or through arrays. *)
Fixpoint convertible (v : JsVal) : bool :=
  match v with
  | VArr l => forallb convertible l
  | VObj kvs => match assoc "toString" kvs with Some _ => false | None => true end
  | _ => true
  end.

(** [data.choices && data.choices[0]] on a payload that is not null. *)
Definition first_choice (d : JsVal) : JsVal :=
  let choices := get_opt d "choices" in
  if truthy choices
  then match get0 choices with Ok v => v | Throw _ => VUndef end
  else choices.


(** Every promise settles in [order]. *)
Definition settles_all (n : nat) (order : list nat) : Prop :=
  forall i : nat, (i < n)%nat -> i ∈ order.

(** What the caller of [server.js] makes of a settled [axios.post]: the
    reply it returns or the error it throws. *)
Definition settled_as `{Engine} (o : AxiosOutcome) : result CallResult :=
  match o with
  | Fulfilled d => extract_reply d
  | HttpError st d _ =>
      msg ← to_string (js_or (get_opt (get_opt d "error") "message")
                             (VStr "OpenRouter API error"));
      Throw {| e_message := msg; e_status := Some st; e_code := None;
               e_data := d; e_response := None |}
  | TransportError msg code =>
      Throw {| e_message := msg; e_status := None; e_code := code;
               e_data := VUndef; e_response := None |}
  end.

(** ** Sample requests and surroundings

    Used by the examples that close the development.  None of the sample
    requests converts a number to a string or a string to a number; the
    engine given here prints an integer in decimal and any other finite
    number as a fraction, and reads no string as a number. *)

Definition sample_engine : Engine :=
  {| number_to_string := fun n =>
       match n with
       | NaN => "NaN"
       | PosInf => "Infinity"
       | NegInf => "-Infinity"
       | Fin q =>
           if (Qden q =? 1)%positive then pretty (Qnum q)
           else pretty (Qnum q) +:+ "/" +:+ pretty (Zpos (Qden q))
       end;
     string_to_number := fun _ => NaN |}.

Definition sample_cfg : Config :=
  {| env_OPENROUTER_API_KEY := Some "sk-or-sample";
     env_MODEL := None;
     env_APP_URL := None |}.

Definition sample_reply : JsVal :=
  VObj [("choices",
         VArr [VObj [("message", VObj [("role", VStr "assistant");
                                       ("content", VStr "hello")]);
                     ("finish_reason", VStr "stop")]]);
        ("usage", VObj [("total_tokens", VNum (num_of_Z 12))])].

(** The first call is answered, the second times out, the others are
    answered with a 404. *)
Definition mixed_upstream (i : nat) (c : PostCall) : AxiosOutcome :=
  match i with
  | O => Fulfilled sample_reply
  | 1%nat => TransportError "timeout of 60000ms exceeded" (Some "ECONNABORTED")
  | _ => HttpError 404 (VObj [("error", VObj [("message", VStr "No such model")])])
           "Request failed with status code 404"
  end.

Definition sample_world : Environment :=
  {| cfg := sample_cfg;
     axios_post := mixed_upstream;
     timestamp := "2025-01-01T00:00:00.000Z" |}.

(** Every call is refused with a 429. *)
Definition limited_world : Environment :=
  {| cfg := sample_cfg;
     axios_post := fun _ _ =>
       HttpError 429 (VObj [("error", VObj [("message", VStr "Slow down")])])
         "Request failed with status code 429";
     timestamp := "2025-01-01T00:00:00.000Z" |}.

(** Every call times out. *)
Definition timeout_world : Environment :=
  {| cfg := sample_cfg;
     axios_post := fun _ _ =>
       TransportError "timeout of 60000ms exceeded" (Some "ECONNABORTED");
     timestamp := "2025-01-01T00:00:00.000Z" |}.

(** Every call is answered with a first choice that has no message. *)
Definition hollow_world : Environment :=
  {| cfg := sample_cfg;
     axios_post := fun _ _ => Fulfilled (VObj [("choices", VArr [VObj []])]);
     timestamp := "2025-01-01T00:00:00.000Z" |}.

(** Every call is answered with an object that has no choices. *)
Definition empty_world : Environment :=
  {| cfg := sample_cfg;
     axios_post := fun _ _ => Fulfilled (VObj []);
     timestamp := "2025-01-01T00:00:00.000Z" |}.

(** No credential in the environment. *)
Definition keyless_world : Environment :=
  {| cfg := {| env_OPENROUTER_API_KEY := None; env_MODEL := None;
               env_APP_URL := None |};
     axios_post := mixed_upstream;
     timestamp := "2025-01-01T00:00:00.000Z" |}.


Definition msg (role content : string) : JsVal :=
  VObj [("role", VStr role); ("content", VStr content)].

Definition sample_models : list JsVal :=
  [VStr "openai/gpt-4o"; VStr "openai/gpt-4o-mini"; VStr "x/y"].

(** [max_tokens = 999999] and [temperature = 5], three models. *)
Definition sample_body : Body :=
  {| messages := VArr [msg "system" "be brief"; msg "user" "hi"];
     model := VUndef;
     models := VArr sample_models;
     max_tokens := VNum (num_of_Z 999999);
     temperature := VNum (num_of_Z 5) |}.

(** A role outside the accepted set. *)
Definition bot_body : Body :=
  {| messages := VArr [msg "bot" "hi"];
     model := VUndef;
     models := VArr [VStr "openai/gpt-4o"];
     max_tokens := VUndef;
     temperature := VUndef |}.

(** A message without a role. *)
Definition roleless_body : Body :=
  {| messages := VArr [msg "user" "hi"; VObj [("content", VStr "hi")]];
     model := VUndef;
     models := VArr [VStr "openai/gpt-4o"];
     max_tokens := VUndef;
     temperature := VUndef |}.

(** No conversation, and six models. *)
Definition empty_body : Body :=
  {| messages := VUndef; model := VUndef; models := VUndef;
     max_tokens := VUndef; temperature := VUndef |}.

Definition six_models_body : Body :=
  {| messages := VArr [msg "user" "hi"];
     model := VUndef;
     models := VArr (VStr <$> ["a"; "b"; "c"; "d"; "e"; "f"]);
     max_tokens := VUndef;
     temperature := VUndef |}.

(** ** The models route of server.js *)

Section Routes.
Context `{Environment}.

Definition available_models : list string :=
  ["openai/gpt-4o";
   "openai/gpt-4o-mini";
   "openai/gpt-4-turbo";
   "anthropic/claude-3.5-sonnet";
   "anthropic/claude-sonnet-4.5";
   "google/gemini-2.0-flash-exp:free";
   "meta-llama/llama-3.2-3b-instruct:free";
   "google/gemma-3-12b-it:free";
   "meta-llama/llama-3.3-70b-instruct:free";
   "openai/gpt-oss-20b:free"].

(** [GET /api/models] *)
Definition models_route : Response :=
  res_json (VObj [("current", VStr DEFAULT_MODEL);
                  ("available", VArr (VStr <$> available_models))]).

End Routes.

(** ** The chat endpoint of the earlier server ([src/unnamed/part_001])

    The handler calls the caller of that server, which has no [catch]: the
    [catch] block of the handler sees the axios error itself and reads its
    [response] and its [request]. *)

Section EarlierChat.
Context `{Engine} `{Environment}.

Definition earlier_DEFAULT_MODEL : string :=
  env_or (env_MODEL cfg) "openai/gpt-4o-mini".

(** The arguments of the [axios.post] of the caller of that server. *)
Definition earlier_completion_call (messages model maxTokens temperature : JsVal)
  : PostCall :=
  {| url := OPENROUTER_URL;
     data := {| req_model := model; req_messages := messages;
                req_max_tokens := default_arg maxTokens (VNum (num_of_Z 1000));
                req_temperature := default_arg temperature (VNum (Fin (7 # 10))) |};
     headers := request_headers;
     timeout := 30000 |}.

(** The [try] block of [POST /api/chat]. *)
Definition earlier_chat_try (body : Body) : Net Response :=
  let messages := messages body in
  if not_nonempty_array messages
  then mret (invalid_request "Messages array is required")
  else if negb (env_truthy OPENROUTER_API_KEY) then mret configuration_error
  else
    let selectedModel := js_or (model body) (VStr earlier_DEFAULT_MODEL) in
    (* console.log(`... Model: ${selectedModel}, Messages: ${messages.length}`) *)
    _ ← lift (to_string selectedModel);
    r ← Earlier.callOpenRouter 0 messages selectedModel
          (max_tokens body) (temperature body);
    mret (res_json (VObj [("success", VBool true);
                          ("message", r.1);
                          ("model", selectedModel);
                          ("usage", r.2)])).

(** [error.request]: axios puts the request on every error it rejects
    with, and the errors the program raises have none.  The handler issues
    one call at most, so the caught error has a request exactly when the
    call that was sent did not fulfil. *)
Definition has_request (calls : list PostCall) : bool :=
  existsb (fun c => match axios_post 0 c with Fulfilled _ => false | _ => true end)
          calls.

(** The [catch] block.  [data.error?.message] reads [data.error] first,
    which raises on a null payload. *)
Definition earlier_catch (error : JsError) (request : bool) : result Response :=
  match e_response error with
  | Some (st, d) =>
      if st =? 401 then
        Ok (error_response 401 "Authentication failed"
              (VStr "Invalid OpenRouter API key"))
      else if st =? 402 then
        Ok (error_response 402 "Payment required"
              (VStr "Insufficient credits on OpenRouter account"))
      else if st =? 429 then
        Ok (error_response 429 "Rate limit exceeded"
              (VStr "Too many requests to OpenRouter API"))
      else if st =? 404 then
        Ok (error_response 404 "Model not found"
              (VStr "The specified model is not available"))
      else
        e ← get d "error";
        Ok (error_response st "OpenRouter API error"
              (js_or (get_opt e "message") (VStr "Unknown error occurred")))
  | None =>
      if request then
        Ok (error_response 503 "Service unavailable"
              (VStr "Unable to reach OpenRouter API"))
      else Ok (error_response 500 "Internal server error" (VStr (e_message error)))
  end.

(** The handler: a [Throw] is an error that leaves the [catch] block. *)
Definition earlier_chat (body : Body) : Net Response :=
  let m := earlier_chat_try body in
  match outcome m with
  | Ok _ => m
  | Throw error => mkNet (earlier_catch error (has_request (sent m))) (sent m)
  end.

End EarlierChat.

(** The statuses the [catch] block of that handler answers with a text of
    its own; it has no entry for 400. *)
Definition earlier_status_table : list (Z * ErrorKind) :=
  [(401, AuthenticationFailed);
   (402, PaymentRequired);
   (429, RateLimitExceeded);
   (404, ModelNotFound)].

(** ** Further sample requests and surroundings *)

(** Every call is refused with a 500 whose error message is an object
    with an own [toString] key. *)
Definition opaque_world : Environment :=
  {| cfg := sample_cfg;
     axios_post := fun _ _ =>
       HttpError 500
         (VObj [("error",
                 VObj [("message", VObj [("toString", VNum (num_of_Z 1))])])])
         "Request failed with status code 500";
     timestamp := "2025-01-01T00:00:00.000Z" |}.

(** Every call is refused with a 502 whose JSON body is [null]. *)
Definition bare_world : Environment :=
  {| cfg := sample_cfg;
     axios_post := fun _ _ => HttpError 502 VNull "Request failed with status code 502";
     timestamp := "2025-01-01T00:00:00.000Z" |}.

(** Every call is refused with a 400. *)
Definition refusing_world : Environment :=
  {| cfg := sample_cfg;
     axios_post := fun _ _ =>
       HttpError 400 (VObj [("error", VObj [("message", VStr "Bad input")])])
         "Request failed with status code 400";
     timestamp := "2025-01-01T00:00:00.000Z" |}.

(** The surroundings of the sample, except that every call is answered. *)
Definition answering_world : Environment :=
  {| cfg := sample_cfg;
     axios_post := fun _ _ => Fulfilled sample_reply;
     timestamp := "2025-01-01T00:00:00.000Z" |}.

(** A request that names its model. *)
Definition named_body : Body :=
  {| messages := VArr [msg "user" "hi"];
     model := VStr "x/y";
     models := VUndef;
     max_tokens := VUndef;
     temperature := VUndef |}.

(** A conversation with a [null] in it. *)
Definition null_message_body : Body :=
  {| messages := VArr [msg "user" "hi"; VNull];
     model := VUndef;
     models := VArr [VStr "openai/gpt-4o"];
     max_tokens := VUndef;
     temperature := VUndef |}.

(** A model that does not print. *)
Definition unprintable_body : Body :=
  {| messages := VArr [msg "user" "hi"];
     model := VObj [("toString", VNull)];
     models := VArr [VStr "openai/gpt-4o"; VObj [("toString", VNull)]];
     max_tokens := VUndef;
     temperature := VUndef |}.

(** Parameters given as text. *)
Definition text_body : Body :=
  {| messages := VArr [msg "user" "hi"];
     model := VUndef;
     models := VArr [VStr "openai/gpt-4o"];
     max_tokens := VStr "many";
     temperature := VStr "hot" |}.

(** * Properties *)

(** ** [Promise.all] *)

Section PromiseAllFacts.
Context {A : Type}.
Implicit Types (legs : list A) (order : list nat) (slots : list (option A)).

Lemma settle_length legs slots i :
  length (settle legs slots i) = length slots.
Proof.
  unfold settle. destruct (legs !! i); [apply length_insert | reflexivity].
Qed.

Lemma settle_all_snoc legs order i :
  settle_all legs (order ++ [i]) = settle legs (settle_all legs order) i.
Proof. unfold settle_all. by rewrite fold_left_app. Qed.

Lemma settle_all_length legs order :
  length (settle_all legs order) = length legs.
Proof.
  induction order as [|i order IH] using rev_ind.
  - apply length_replicate.
  - by rewrite settle_all_snoc, settle_length.
Qed.

Lemma settled_snoc_ne order (i j : nat) :
  i ≠ j -> bool_decide (j ∈ (order ++ [i])%list) = bool_decide (j ∈ order).
Proof.
  intros Hne. apply bool_decide_ext.
  rewrite elem_of_app, list_elem_of_singleton.
  split; [intros [?|?]; [done | congruence] | by left].
Qed.

(** Slot [j] holds the value of promise [j] exactly when [j] has settled. *)
Lemma settle_all_lookup legs order j :
  (j < length legs)%nat ->
  settle_all legs order !! j
  = Some (if bool_decide (j ∈ order) then legs !! j else None).
Proof.
  intros Hj. induction order as [|i order IH] using rev_ind.
  - change (settle_all legs []) with (replicate (length legs) (@None A)).
    rewrite lookup_replicate_2 by done.
    rewrite bool_decide_eq_false_2; [done | apply not_elem_of_nil].
  - rewrite settle_all_snoc. unfold settle.
    destruct (legs !! i) as [v|] eqn:Hi.
    + destruct (decide (i = j)) as [->|Hne].
      * rewrite list_lookup_insert_eq by (by rewrite settle_all_length).
        rewrite bool_decide_eq_true_2, Hi; [done|].
        apply elem_of_app. right. by apply list_elem_of_singleton.
      * rewrite list_lookup_insert_ne by done.
        by rewrite IH, settled_snoc_ne.
    + rewrite IH, settled_snoc_ne; [done|].
      intros ->. apply lookup_lt_is_Some_2 in Hj.
      rewrite Hi in Hj. by destruct Hj.
Qed.

(** Once every promise has settled, whatever the order, [Promise.all]
    resolves with the values in index order. *)
Lemma promise_all_resolves legs order :
  settles_all (length legs) order -> promise_all order legs = Some legs.
Proof.
  intros Hall. unfold promise_all. apply mapM_Some.
  apply Forall2_same_length_lookup. split.
  - apply settle_all_length.
  - intros j s v Hs Hv.
    rewrite settle_all_lookup in Hs by (by eapply lookup_lt_Some).
    rewrite bool_decide_eq_true_2 in Hs
      by (apply Hall; by eapply lookup_lt_Some).
    simpl. congruence.
Qed.

(** While some promise has not settled, it does not resolve. *)
Lemma promise_all_pending legs order j :
  (j < length legs)%nat -> j ∉ order -> promise_all order legs = None.
Proof.
  intros Hj Hnot. unfold promise_all. apply mapM_None.
  apply Exists_exists. exists None. split; [|done].
  apply list_elem_of_lookup. exists j.
  rewrite settle_all_lookup by done.
  by rewrite bool_decide_eq_false_2.
Qed.

End PromiseAllFacts.

(** ** The monad of upstream calls *)

Lemma bind_lift_Ok {A B} (a : A) (f : A -> Net B) : lift (Ok a) ≫= f = f a.
Proof. unfold mbind, Net_bind, lift; simpl. by destruct (f a). Qed.

Lemma bind_lift_Throw {A B} (e : JsError) (f : A -> Net B) :
  lift (Throw e) ≫= f = throw e.
Proof. reflexivity. Qed.

(** ** The validation loops *)

Lemma lacks_role_or_content_spec (msg : JsVal) :
  nullish msg = false ->
  lacks_role_or_content msg = Ok (negb (has_role_and_content msg)).
Proof.
  intros Hn. unfold lacks_role_or_content, has_role_and_content.
  destruct msg; try discriminate; simpl; try reflexivity.
  destruct (truthy (default VUndef (assoc "role" kvs))); reflexivity.
Qed.

Lemma has_role_and_content_not_nullish (msg : JsVal) :
  has_role_and_content msg = true -> nullish msg = false.
Proof. by destruct msg. Qed.

Lemma get_role (msg : JsVal) :
  nullish msg = false -> get msg "role" = Ok (get_opt msg "role").
Proof. by destruct msg. Qed.

Section Properties.
Context `{Engine} `{Environment}.

Lemma check_format_passes (msgs : list JsVal) :
  forallb has_role_and_content msgs = true -> check_format msgs = Ok None.
Proof.
  induction msgs as [|msg msgs IH]; [done|]. simpl.
  intros [Hm Hrest]%andb_prop.
  rewrite lacks_role_or_content_spec
    by (by apply has_role_and_content_not_nullish).
  rewrite Hm. simpl. by apply IH.
Qed.

Lemma check_format_rejects (msgs : list JsVal) :
  forallb (fun m => negb (nullish m)) msgs = true ->
  forallb has_role_and_content msgs = false ->
  check_format msgs
  = Ok (Some (error_response 400 "Invalid message format"
                (VStr "Each message must have role and content fields"))).
Proof.
  induction msgs as [|msg msgs IH]; [done|]. simpl.
  intros [Hn Hrest]%andb_prop Hex. apply negb_true_iff in Hn.
  rewrite lacks_role_or_content_spec by done.
  destruct (has_role_and_content msg); simpl in *; [by apply IH | done].
Qed.

(** The loop of the caller passes exactly on conversations of valid
    messages. *)
Lemma validate_each_passes (msgs : list JsVal) :
  validate_each msgs = Ok tt <-> forallb valid_message msgs = true.
Proof.
  induction msgs as [|msg msgs IH]; [done|]. simpl.
  unfold valid_message at 1, role_allowed.
  destruct (nullish msg) eqn:Hn.
  - destruct msg; try discriminate; simpl; split; discriminate.
  - rewrite lacks_role_or_content_spec, get_role by done.
    destruct (has_role_and_content msg); simpl; [|split; discriminate].
    destruct (str_eq _ "user" || _); simpl; [done|split; discriminate].
Qed.

Lemma validate_each_throws_plain (msgs : list JsVal) (e : JsError) :
  validate_each msgs = Throw e -> e_response e = None.
Proof.
  induction msgs as [|msg msgs IH]; [done|]. simpl.
  destruct (nullish msg) eqn:Hn.
  - destruct msg; try discriminate; simpl; intros [= <-]; done.
  - rewrite lacks_role_or_content_spec, get_role by done.
    destruct (has_role_and_content msg); simpl; [|by intros [= <-]].
    destruct (str_eq _ "user" || _); simpl; [done|by intros [= <-]].
Qed.

(** ** The upstream caller *)

Lemma extract_reply_throws_plain (d : JsVal) (e : JsError) :
  extract_reply d = Throw e -> e_response e = None.
Proof.
  unfold extract_reply.
  repeat match goal with
         | |- context [mbind _ ?m] =>
             let E := fresh "E" in
             destruct m as [?|?] eqn:E; simpl;
             [| intros [= <-];
                repeat match goal with
                       | X : _ = Throw _ |- _ =>
                           first [ by (destruct d; inversion X)
                                 | by (unfold get, get0 in X;
                                       repeat case_match; inversion X) ]
                       end ]
         | |- context [if ?b then _ else _] => destruct b eqn:?; simpl
         end; try done; try by intros [= <-].
Qed.

Lemma valid_conversation_inv (messages : JsVal) :
  valid_conversation messages = true ->
  isArray messages = true /\ (length (elements messages) =? 0)%nat = false
  /\ validate_each (elements messages) = Ok tt.
Proof.
  unfold valid_conversation.
  intros [[Ha Hl%negb_true_iff]%andb_prop Hv]%andb_prop.
  by rewrite validate_each_passes.
Qed.

(** On a valid conversation the caller sends exactly one request and
    returns or throws what the settled call gives. *)
Lemma callOpenRouter_valid (i : nat) (messages model mt t : JsVal) :
  valid_conversation messages = true ->
  let c := chat_completion_call messages model
             (default_arg mt (VNum (num_of_Z 1000)))
             (default_arg t (VNum (Fin (7 # 10)))) in
  callOpenRouter i messages model mt t = mkNet (settled_as (axios_post i c)) [c].
Proof.
  intros (Ha & Hl & Hv)%valid_conversation_inv c.
  unfold callOpenRouter. rewrite Ha, Hl, Hv. simpl negb. simpl orb.
  rewrite !bind_lift_Ok. fold c.
  unfold post, mbind at 1, Net_bind, try_catch; simpl.
  destruct (axios_post i c) as [d|st d msg|msg code]; simpl.
  - destruct (extract_reply d) as [r|e] eqn:E; simpl; [done|].
    by rewrite (extract_reply_throws_plain _ _ E).
  - by destruct (to_string _).
  - done.
Qed.

(** On any other conversation it sends nothing and throws an error that
    has neither a status nor a code. *)
Lemma callOpenRouter_invalid (i : nat) (messages model mt t : JsVal) :
  valid_conversation messages = false ->
  exists e, callOpenRouter i messages model mt t = mkNet (Throw e) []
            /\ e_status e = None /\ e_code e = None.
Proof.
  unfold valid_conversation, callOpenRouter. intros Hv.
  destruct (negb (isArray messages) || (length (elements messages) =? 0)%nat)
    eqn:Hc; cbv iota.
  - rewrite bind_lift_Throw. eexists. split; [reflexivity | done].
  - apply orb_false_elim in Hc as [Ha%negb_false_iff Hl].
    rewrite Ha, Hl in Hv. simpl in Hv. rewrite bind_lift_Ok.
    destruct (validate_each (elements messages)) as [[]|e] eqn:E.
    + apply validate_each_passes in E. congruence.
    + rewrite bind_lift_Throw. unfold try_catch; simpl.
      rewrite (validate_each_throws_plain _ _ E). simpl.
      exists e. split; [done|].
      clear -E. induction (elements messages) as [|msg msgs IH]; [done|].
      simpl in E. destruct (nullish msg) eqn:Hn.
      * destruct msg; try discriminate; simpl in E; by inversion E.
      * rewrite lacks_role_or_content_spec, get_role in E by done.
        destruct (has_role_and_content msg); simpl in E; [|by inversion E].
        destruct (str_eq _ "user" || _); simpl in E; [auto|by inversion E].
Qed.

Lemma callOpenRouter_sent (i : nat) (messages model mt t : JsVal) :
  sent (callOpenRouter i messages model mt t)
  = if valid_conversation messages
    then [chat_completion_call messages model
            (default_arg mt (VNum (num_of_Z 1000)))
            (default_arg t (VNum (Fin (7 # 10))))]
    else [].
Proof.
  destruct (valid_conversation messages) eqn:Hv.
  - by rewrite callOpenRouter_valid.
  - destruct (callOpenRouter_invalid i messages model mt t Hv) as (e & -> & _).
    done.
Qed.

(** ** The fan-out *)

Lemma launch_outcome (messages mt t : JsVal) (i : nat) (models : list JsVal) :
  outcome (launch messages mt t i models)
  = Ok (imap (fun k m => leg_item messages mt t (i + k) m) models).
Proof.
  revert i. induction models as [|m models IH]; intros i; [done|].
  simpl. unfold mbind at 1, Net_bind at 1; simpl.
  unfold mbind, Net_bind. rewrite IH. simpl.
  rewrite Nat.add_0_r. do 2 f_equal.
  apply imap_ext. intros k x _. simpl. f_equal. lia.
Qed.

Lemma launch_sent (messages mt t : JsVal) (i : nat) (models : list JsVal) :
  sent (launch messages mt t i models)
  = if valid_conversation messages
    then (fun m => chat_completion_call messages m
                     (default_arg mt (VNum (num_of_Z 1000)))
                     (default_arg t (VNum (Fin (7 # 10))))) <$> models
    else [].
Proof.
  revert i. induction models as [|m models IH]; intros i.
  - simpl. by destruct (valid_conversation messages).
  - simpl. unfold mbind at 1, Net_bind at 1; simpl.
    unfold mbind, Net_bind. rewrite launch_outcome. simpl.
    rewrite IH, callOpenRouter_sent, app_nil_r.
    by destruct (valid_conversation messages).
Qed.


(** ** The handlers *)

Lemma try_catch_mret_sent {A} (m : Net A) (h : JsError -> A) :
  sent (try_catch m (fun e => mret (h e))) = sent m.
Proof.
  unfold try_catch. destruct (outcome m); simpl; [done | apply app_nil_r].
Qed.

Lemma bind_mret_sent {A B} (m : Net A) (f : A -> B) :
  sent (m ≫= fun a => mret (f a)) = sent m.
Proof.
  unfold mbind, Net_bind. destruct (outcome m); simpl; [apply app_nil_r | done].
Qed.

(** The chat handler reaches the caller exactly when all its checks pass,
    and then the rest of the [try] block is the call and the reply. *)
Lemma chat_try_caller (body : Body) (mt t : JsNum) (s : string) :
  not_nonempty_array (messages body) = false ->
  check_format (elements (messages body)) = Ok None ->
  env_truthy OPENROUTER_API_KEY = true ->
  validatedMaxTokens (max_tokens body) = Ok mt ->
  validatedTemperature (temperature body) = Ok t ->
  to_string (selectedModel (model body)) = Ok s ->
  chat_try body
  = callOpenRouter 0 (messages body) (selectedModel (model body)) (VNum mt) (VNum t)
      ≫= fun r => mret (chat_reply (selectedModel (model body)) r).
Proof.
  intros Hm Hf Hk Hmt Ht Hs. unfold chat_try.
  rewrite Hm, Hf, Hk, Hmt, Ht, Hs. simpl negb. cbv iota.
  by rewrite !bind_lift_Ok.
Qed.

Lemma chat_try_cases (body : Body) :
  sent (chat_try body) = []
  \/ exists mt t s,
       not_nonempty_array (messages body) = false
       /\ check_format (elements (messages body)) = Ok None
       /\ env_truthy OPENROUTER_API_KEY = true
       /\ validatedMaxTokens (max_tokens body) = Ok mt
       /\ validatedTemperature (temperature body) = Ok t
       /\ to_string (selectedModel (model body)) = Ok s.
Proof.
  unfold chat_try.
  destruct (not_nonempty_array (messages body)) eqn:Hm; [by left|].
  destruct (check_format (elements (messages body))) as [[r|]|e] eqn:Hf;
    [by left | | by left].
  rewrite bind_lift_Ok.
  destruct (env_truthy OPENROUTER_API_KEY) eqn:Hk; [|by left]. simpl negb. cbv iota.
  destruct (validatedMaxTokens (max_tokens body)) as [mt|e] eqn:Hmt; [|by left].
  rewrite bind_lift_Ok.
  destruct (validatedTemperature (temperature body)) as [t|e] eqn:Ht; [|by left].
  rewrite bind_lift_Ok.
  destruct (to_string (selectedModel (model body))) as [s|e] eqn:Hs; [|by left].
  right. by exists mt, t, s.
Qed.

(** A conversation that passed the caller's loop also passes the
    handler's. *)
Lemma valid_conversation_format (messages : JsVal) :
  valid_conversation messages = true ->
  not_nonempty_array messages = false
  /\ check_format (elements messages) = Ok None.
Proof.
  unfold valid_conversation, not_nonempty_array.
  intros [[Ha Hl%negb_true_iff]%andb_prop Hv]%andb_prop. split.
  - destruct messages; try discriminate. by rewrite Hl.
  - apply check_format_passes. rewrite forallb_forall in Hv |- *.
    intros m Hm. specialize (Hv m Hm).
    by apply andb_prop in Hv as [? _].
Qed.

(** Every request the chat endpoint sends upstream. *)
Lemma chat_sent_inv (body : Body) (c : PostCall) :
  c ∈ sent (chat body) ->
  exists mt t,
    valid_conversation (messages body) = true
    /\ validatedMaxTokens (max_tokens body) = Ok mt
    /\ validatedTemperature (temperature body) = Ok t
    /\ c = chat_completion_call (messages body) (selectedModel (model body))
             (VNum mt) (VNum t).
Proof.
  unfold chat. rewrite try_catch_mret_sent.
  destruct (chat_try_cases body) as [->|(mt & t & s & Hm & Hf & Hk & Hmt & Ht & Hs)].
  - by intros ?%elem_of_nil.
  - rewrite (chat_try_caller body mt t s) by done.
    rewrite bind_mret_sent, callOpenRouter_sent.
    destruct (valid_conversation (messages body)); [|by intros ?%elem_of_nil].
    intros ->%list_elem_of_singleton. by exists mt, t.
Qed.

(** The compare handler starts the legs exactly when all its checks
    pass. *)
Lemma compare_try_launch (body : Body) (order : list nat) (mt t : JsNum) (s : string) :
  not_nonempty_array (messages body) = false ->
  not_nonempty_array (models body) = false ->
  (5 <? length (elements (models body)))%nat = false ->
  check_format (elements (messages body)) = Ok None ->
  env_truthy OPENROUTER_API_KEY = true ->
  validatedMaxTokens (max_tokens body) = Ok mt ->
  validatedTemperature (temperature body) = Ok t ->
  join (elements (models body)) ", " = Ok s ->
  compare_try body order
  = launch (messages body) (VNum mt) (VNum t) 0 (elements (models body))
      ≫= fun promises => mret (compare_reply <$> promise_all order promises).
Proof.
  intros Hm Hms Hn Hf Hk Hmt Ht Hs. unfold compare_try.
  rewrite Hm, Hms, Hn, Hf, Hk, Hmt, Ht, Hs. simpl negb. cbv iota.
  by rewrite !bind_lift_Ok.
Qed.

Lemma compare_try_cases (body : Body) (order : list nat) :
  (sent (compare_try body order) = []
   /\ outcome (compare_try body order) ≠ Ok None)
  \/ exists mt t s,
       not_nonempty_array (messages body) = false
       /\ not_nonempty_array (models body) = false
       /\ (5 <? length (elements (models body)))%nat = false
       /\ check_format (elements (messages body)) = Ok None
       /\ env_truthy OPENROUTER_API_KEY = true
       /\ validatedMaxTokens (max_tokens body) = Ok mt
       /\ validatedTemperature (temperature body) = Ok t
       /\ join (elements (models body)) ", " = Ok s.
Proof.
  unfold compare_try.
  destruct (not_nonempty_array (messages body)) eqn:Hm; [by left|].
  destruct (not_nonempty_array (models body)) eqn:Hms; [by left|].
  destruct (5 <? length (elements (models body)))%nat eqn:Hn; [by left|].
  destruct (check_format (elements (messages body))) as [[r|]|e] eqn:Hf;
    [by left | | by left].
  rewrite bind_lift_Ok.
  destruct (env_truthy OPENROUTER_API_KEY) eqn:Hk; [|by left]. simpl negb. cbv iota.
  destruct (validatedMaxTokens (max_tokens body)) as [mt|e] eqn:Hmt; [|by left].
  rewrite bind_lift_Ok.
  destruct (validatedTemperature (temperature body)) as [t|e] eqn:Ht; [|by left].
  rewrite bind_lift_Ok.
  destruct (join (elements (models body)) ", ") as [s|e] eqn:Hs; [|by left].
  right. by exists mt, t, s.
Qed.

(** Once the legs are started the handler can only answer with the
    results, and it does so when [Promise.all] resolves. *)
Lemma compare_launched (body : Body) (order : list nat) (mt t : JsNum) (s : string) :
  not_nonempty_array (messages body) = false ->
  not_nonempty_array (models body) = false ->
  (5 <? length (elements (models body)))%nat = false ->
  check_format (elements (messages body)) = Ok None ->
  env_truthy OPENROUTER_API_KEY = true ->
  validatedMaxTokens (max_tokens body) = Ok mt ->
  validatedTemperature (temperature body) = Ok t ->
  join (elements (models body)) ", " = Ok s ->
  compare body order
  = mkNet
      (Ok (compare_reply
             <$> promise_all order
                   (imap (leg_item (messages body) (VNum mt) (VNum t))
                         (elements (models body)))))
      (sent (launch (messages body) (VNum mt) (VNum t) 0 (elements (models body)))).
Proof.
  intros. unfold compare.
  rewrite (compare_try_launch body order mt t s) by done.
  unfold mbind, Net_bind. rewrite launch_outcome. simpl.
  by rewrite app_nil_r.
Qed.

(** Every request the compare endpoint sends upstream. *)
Lemma compare_sent_inv (body : Body) (order : list nat) (c : PostCall) :
  c ∈ sent (compare body order) ->
  exists mt t m,
    valid_conversation (messages body) = true
    /\ validatedMaxTokens (max_tokens body) = Ok mt
    /\ validatedTemperature (temperature body) = Ok t
    /\ m ∈ elements (models body)
    /\ c = chat_completion_call (messages body) m (VNum mt) (VNum t).
Proof.
  destruct (compare_try_cases body order)
    as [[Hnil _]|(mt & t & s & Hm & Hms & Hn & Hf & Hk & Hmt & Ht & Hs)].
  - unfold compare. rewrite try_catch_mret_sent, Hnil. by intros ?%elem_of_nil.
  - rewrite (compare_launched body order mt t s) by done. simpl.
    rewrite launch_sent.
    destruct (valid_conversation (messages body)); [|by intros ?%elem_of_nil].
    intros (m & -> & Hin)%list_elem_of_fmap. by exists mt, t, m.
Qed.

(** ** Parameter normalisation *)

Lemma num_lt_Fin (p q : Q) : num_lt (Fin p) (Fin q) = true <-> (p < q)%Q.
Proof.
  simpl. rewrite Qlt_alt. destruct (p ?= q)%Q; split; congruence.
Qed.

Lemma math_min_Fin (q c : Q) :
  exists r, math_min (Fin q) (Fin c) = Fin r /\ (r == Qmin q c)%Q.
Proof.
  unfold math_min. simpl is_nan. simpl orb. cbv iota.
  destruct (num_lt (Fin c) (Fin q)) eqn:E.
  - apply num_lt_Fin in E. exists c. split; [done|].
    symmetry. apply Q.min_r. by apply Qlt_le_weak.
  - exists q. split; [done|]. symmetry. apply Q.min_l.
    apply Qnot_lt_le. intros Hlt%num_lt_Fin. congruence.
Qed.

Lemma math_max_Fin (c q : Q) :
  exists r, math_max (Fin c) (Fin q) = Fin r /\ (r == Qmax c q)%Q.
Proof.
  unfold math_max. simpl is_nan. simpl orb. cbv iota.
  destruct (num_lt (Fin c) (Fin q)) eqn:E.
  - apply num_lt_Fin in E. exists q. split; [done|].
    symmetry. apply Q.max_r. by apply Qlt_le_weak.
  - exists c. split; [done|]. symmetry. apply Q.max_l.
    apply Qnot_lt_le. intros Hlt%num_lt_Fin. congruence.
Qed.






(** Induction on values, through arrays. *)
Lemma JsVal_array_ind (P : JsVal -> Prop) :
  (forall v, isArray v = false -> P v) ->
  (forall l, Forall P l -> P (VArr l)) ->
  forall v, P v.
Proof.
  intros Hbase Harr. fix IH 1. intros v.
  destruct v as [| | | | |l|]; try (by apply Hbase).
  apply Harr. induction l as [|x l IHl]; constructor; [apply IH | apply IHl].
Qed.

Lemma to_string_convertible (v : JsVal) :
  convertible v = true -> exists s, to_string v = Ok s.
Proof.
  induction v as [v Hv|l IH] using JsVal_array_ind.
  - destruct v as [| |[]| | | |kvs]; try discriminate; simpl; eauto.
    destruct (assoc "toString" kvs); [discriminate | eauto].
  - simpl. induction IH as [|x l Hx _ IHl]; [eauto|].
    intros [Hcx Hcl]%andb_prop. destruct (IHl Hcl) as [r Hr].
    destruct (Hx Hcx) as [sx Hsx]. simpl.
    assert (exists s, match x with VUndef | VNull => Ok "" | _ => to_string x end
                      = Ok s) as [s ->]
      by (destruct x; eauto).
    simpl. destruct l; [eauto|]. simpl in Hr |- *. rewrite Hr. eauto.
Qed.

Lemma join_convertible (l : list JsVal) (sep : string) :
  forallb convertible l = true -> exists s, join l sep = Ok s.
Proof.
  unfold join. induction l as [|x l IH]; [eauto|].
  intros [Hcx Hcl]%andb_prop. destruct (IH Hcl) as [r Hr].
  destruct (to_string_convertible x Hcx) as [sx Hsx]. simpl.
  assert (exists s, match x with VUndef | VNull => Ok "" | _ => to_string x end
                    = Ok s) as [s ->]
    by (destruct x; eauto).
  simpl. destruct l; [eauto|]. simpl in Hr |- *. rewrite Hr. eauto.
Qed.

Lemma to_number_convertible (v : JsVal) :
  convertible v = true -> exists n, to_number v = Ok n.
Proof.
  intros Hv. destruct (to_string_convertible v Hv) as [s Hs].
  destruct v as [| |[]| | | |]; simpl; eauto; simpl in Hs; rewrite Hs; eauto.
Qed.

Lemma validatedMaxTokens_converts (v : JsVal) :
  convertible v = true -> exists n, validatedMaxTokens v = Ok n.
Proof.
  intros [n Hn]%to_number_convertible.
  unfold validatedMaxTokens, gt_zero, Math_min. rewrite Hn.
  unfold mbind, result_bind.
  destruct (truthy v); [|by eexists]. destruct (num_lt _ n); by eexists.
Qed.

Lemma validatedTemperature_converts (v : JsVal) :
  convertible v = true -> exists n, validatedTemperature v = Ok n.
Proof.
  intros [n Hn]%to_number_convertible.
  unfold validatedTemperature, Math_min. rewrite Hn.
  destruct v; by eexists.
Qed.

(** ** The earlier server *)

Lemma earlier_launch_outcome (messages mt t : JsVal) (i : nat) (models : list JsVal) :
  outcome (Earlier.launch messages mt t i models)
  = Ok (imap (fun k m => Earlier.leg_item messages mt t (i + k) m) models).
Proof.
  revert i. induction models as [|m models IH]; intros i; [done|].
  simpl. unfold mbind at 1, Net_bind at 1; simpl.
  unfold mbind, Net_bind. rewrite IH. simpl.
  rewrite Nat.add_0_r. do 2 f_equal.
  apply imap_ext. intros k x _. simpl. f_equal. lia.
Qed.


Lemma earlier_compare_launched (body : Body) (order : list nat) (s : string) :
  not_nonempty_array (messages body) = false ->
  not_nonempty_array (models body) = false ->
  env_truthy OPENROUTER_API_KEY = true ->
  join (elements (models body)) ", " = Ok s ->
  Earlier.compare body order
  = mkNet
      (Ok (Earlier.compare_reply
             <$> promise_all order
                   (imap (Earlier.leg_item (messages body) (max_tokens body)
                            (temperature body))
                         (elements (models body)))))
      (sent (Earlier.launch (messages body) (max_tokens body) (temperature body)
               0 (elements (models body)))).
Proof.
  intros Hm Hms Hk Hs. unfold Earlier.compare, Earlier.compare_try.
  rewrite Hm, Hms, Hk, Hs. simpl negb. cbv iota. rewrite bind_lift_Ok.
  unfold mbind, Net_bind. rewrite earlier_launch_outcome. simpl.
  by rewrite app_nil_r.
Qed.

Lemma earlier_callOpenRouter_sent (i : nat) (messages model mt t : JsVal) :
  sent (Earlier.callOpenRouter i messages model mt t)
  = [{| url := OPENROUTER_URL;
        data := {| req_model := model; req_messages := messages;
                   req_max_tokens := default_arg mt (VNum (num_of_Z 1000));
                   req_temperature := default_arg t (VNum (Fin (7 # 10))) |};
        headers := request_headers;
        timeout := 30000 |}].
Proof.
  unfold Earlier.callOpenRouter, post, mbind, Net_bind. simpl.
  by destruct (axios_post _ _).
Qed.

Lemma earlier_launch_sent (messages mt t : JsVal) (i : nat) (models : list JsVal) :
  sent (Earlier.launch messages mt t i models)
  = (fun m => {| url := OPENROUTER_URL;
                 data := {| req_model := m; req_messages := messages;
                            req_max_tokens := default_arg mt (VNum (num_of_Z 1000));
                            req_temperature := default_arg t (VNum (Fin (7 # 10))) |};
                 headers := request_headers;
                 timeout := 30000 |}) <$> models.
Proof.
  revert i. induction models as [|m models IH]; intros i; [done|].
  simpl. unfold mbind at 1, Net_bind at 1; simpl.
  unfold mbind, Net_bind. rewrite earlier_launch_outcome. simpl.
  by rewrite IH, app_nil_r, earlier_callOpenRouter_sent.
Qed.





(** ** Acceptance *)

Lemma accepted_conversation_inv (messages : JsVal) :
  accepted_conversation messages = true ->
  not_nonempty_array messages = false
  /\ check_format (elements messages) = Ok None.
Proof.
  unfold accepted_conversation, not_nonempty_array.
  intros [[Ha Hl%negb_true_iff]%andb_prop Hv]%andb_prop. split.
  - destruct messages; try discriminate. by rewrite Hl.
  - by apply check_format_passes.
Qed.


Lemma not_nonempty_array_spec (v : JsVal) :
  not_nonempty_array v = false <-> exists l, v = VArr l /\ l ≠ [].
Proof.
  unfold not_nonempty_array. split.
  - destruct v as [| | | | |l|]; try (by destruct b); try done.
    + simpl. by rewrite orb_true_r.
    + simpl. by rewrite orb_true_r.
    + destruct l; [done|]. intros _. by eexists.
  - intros (l & -> & Hl). by destruct l.
Qed.

Lemma models_in_bounds (v : JsVal) :
  (exists l, v = VArr l /\ (1 <= length l <= 5)%nat) ->
  not_nonempty_array v = false /\ (5 <? length (elements v))%nat = false.
Proof.
  intros (l & -> & Hlo & Hhi). split.
  - apply not_nonempty_array_spec. exists l. split; [done|].
    destruct l; [simpl in Hlo; lia | done].
  - simpl. apply Nat.ltb_ge. lia.
Qed.

(** ** The compare endpoint *)

(** The conditions of an accepted compare request give the conditions
    under which the handler starts the legs. *)
Lemma compare_accepted (body : Body) (order : list nat) (ms : list JsVal) :
  accepted_conversation (messages body) = true ->
  models body = VArr ms ->
  (1 <= length ms <= 5)%nat ->
  env_truthy OPENROUTER_API_KEY = true ->
  convertible (models body) = true ->
  convertible (max_tokens body) = true ->
  convertible (temperature body) = true ->
  exists mt t,
    validatedMaxTokens (max_tokens body) = Ok mt
    /\ validatedTemperature (temperature body) = Ok t
    /\ compare body order
       = mkNet
           (Ok (compare_reply
                  <$> promise_all order
                        (imap (leg_item (messages body) (VNum mt) (VNum t)) ms)))
           (sent (launch (messages body) (VNum mt) (VNum t) 0 ms)).
Proof.
  intros [Hm Hf]%accepted_conversation_inv Hms Hlen Hk Hc Hmt Ht.
  destruct (models_in_bounds (models body)) as [Hok Hn]; [by exists ms|].
  destruct (validatedMaxTokens_converts _ Hmt) as [mt Emt].
  destruct (validatedTemperature_converts _ Ht) as [t Et].
  rewrite Hms in Hc. simpl in Hc.
  destruct (join_convertible ms ", " Hc) as [s Hs].
  exists mt, t. split; [done|]. split; [done|].
  rewrite (compare_launched body order mt t s); first [done | by rewrite Hms].
Qed.





(** ** The error classifier *)

Lemma classify_status_kind (st : Z) (d : JsVal) :
  status (classify_status st d) = st
  /\ error_kind (classify_status st d) = Some (kind_of_status status_table st).
Proof.
  unfold classify_status, kind_of_status, status_table.
  destruct (st =? 401) eqn:E1; [apply Z.eqb_eq in E1 as ->; done|].
  destruct (st =? 402) eqn:E2; [apply Z.eqb_eq in E2 as ->; done|].
  destruct (st =? 429) eqn:E3; [apply Z.eqb_eq in E3 as ->; done|].
  destruct (st =? 404) eqn:E4; [apply Z.eqb_eq in E4 as ->; done|].
  destruct (st =? 400) eqn:E5; [apply Z.eqb_eq in E5 as ->; done|].
  done.
Qed.

Lemma status_truthy (st : Z) : st ≠ 0 -> truthy (status_value (Some st)) = true.
Proof.
  intros Hst. simpl. apply negb_true_iff.
  destruct (Qeq_bool (inject_Z st) (inject_Z 0)) eqn:E; [|done].
  apply Qeq_bool_iff in E. unfold Qeq in E. simpl in E. lia.
Qed.



(** ** What is sent upstream *)

Lemma sent_parameters (body : Body) (order : list nat) (c : PostCall) :
  c ∈ sent (chat body) \/ c ∈ sent (compare body order) ->
  exists mt t,
    validatedMaxTokens (max_tokens body) = Ok mt
    /\ validatedTemperature (temperature body) = Ok t
    /\ req_max_tokens (data c) = VNum mt
    /\ req_temperature (data c) = VNum t
    /\ req_messages (data c) = messages body
    /\ valid_conversation (messages body) = true.
Proof.
  intros [(mt & t & Hv & Hmt & Ht & ->)%chat_sent_inv
         |(mt & t & m & Hv & Hmt & Ht & _ & ->)%compare_sent_inv];
    by exists mt, t.
Qed.


(** ** Rejections *)

(** C5 (amended).  A chat request, or a compare request with one to five
    models, whose conversation is a non-empty array of non-null messages
    one of which lacks a role or a content, is rejected with
    InvalidMessage (400) and nothing is sent upstream.  The handlers do not
    test the role against the accepted set; even so, every request that is
    sent upstream carries the conversation of the request, and that
    conversation has only messages with a role among user, assistant and
    system and with a content. *)
Theorem invalid_message_rejected
    (body : Body) (order : list nat) (msgs : list JsVal) :
  messages body = VArr msgs ->
  msgs ≠ [] ->
  forallb (fun m => negb (nullish m)) msgs = true ->
  forallb has_role_and_content msgs = false ->
  let r := error_response 400 "Invalid message format"
             (VStr "Each message must have role and content fields") in
  chat body = mkNet (Ok r) []
  /\ error_kind r = Some InvalidMessage
  /\ ((exists l, models body = VArr l /\ (1 <= length l <= 5)%nat) ->
      compare body order = mkNet (Ok (Some r)) [])
  /\ (forall (body' : Body) (order' : list nat) (c : PostCall),
        c ∈ sent (chat body') \/ c ∈ sent (compare body' order') ->
        req_messages (data c) = messages body'
        /\ valid_conversation (messages body') = true).
Proof.
  intros Hm Hne Hnn Hlacks r.
  assert (not_nonempty_array (messages body) = false) as Hok
    by (apply not_nonempty_array_spec; eauto).
  pose proof (check_format_rejects msgs Hnn Hlacks) as Hf.
  repeat apply conj.
  - unfold chat, chat_try. rewrite Hok, Hm. simpl elements. by rewrite Hf.
  - done.
  - intros [Hms Hn]%models_in_bounds.
    unfold compare, compare_try. rewrite Hok, Hms, Hn, Hm. simpl elements.
    by rewrite Hf.
  - intros body' order' c Hc.
    by destruct (sent_parameters body' order' c Hc) as (mt & t & _ & _ & _ & _ & ? & ?).
Qed.


(** C7.  A chat or compare request whose conversation is missing, is not
    an array or is an empty array is rejected with InvalidRequest (400) and
    nothing is sent upstream. *)
Theorem missing_conversation_rejected (body : Body) (order : list nat) :
  ~ (exists l, messages body = VArr l /\ l ≠ []) ->
  let r := invalid_request "Messages array is required and must not be empty" in
  chat body = mkNet (Ok r) []
  /\ compare body order = mkNet (Ok (Some r)) []
  /\ status r = 400
  /\ error_kind r = Some InvalidRequest.
Proof.
  intros Hbad r.
  assert (not_nonempty_array (messages body) = true) as Hm.
  { destruct (not_nonempty_array (messages body)) eqn:E; [done|].
    by apply not_nonempty_array_spec in E. }
  unfold chat, chat_try, compare, compare_try. by rewrite Hm.
Qed.

(** C8.  Without a configured credential, a chat request with an
    otherwise valid body, and a compare request with an otherwise valid
    body, are answered with the 500 ConfigurationError and nothing is sent
    upstream. *)
Theorem missing_credential_fails_fast (body : Body) (order : list nat) :
  env_truthy OPENROUTER_API_KEY = false ->
  accepted_conversation (messages body) = true ->
  chat body = mkNet (Ok configuration_error) []
  /\ ((exists l, models body = VArr l /\ (1 <= length l <= 5)%nat) ->
      compare body order = mkNet (Ok (Some configuration_error)) [])
  /\ status configuration_error = 500
  /\ error_kind configuration_error = Some ConfigurationError.
Proof.
  intros Hk [Hm Hf]%accepted_conversation_inv. repeat apply conj; try done.
  - unfold chat, chat_try. by rewrite Hm, Hf, bind_lift_Ok, Hk.
  - intros [Hms Hn]%models_in_bounds.
    unfold compare, compare_try. by rewrite Hm, Hms, Hn, Hf, bind_lift_Ok, Hk.
Qed.

(** ** The reply of the upstream service *)

Lemma get_get_opt (v : JsVal) (k : string) :
  nullish v = false -> get v k = Ok (get_opt v k).
Proof. by destruct v. Qed.

Lemma truthy_not_nullish (v : JsVal) : truthy v = true -> nullish v = false.
Proof. by destruct v. Qed.

Lemma get0_not_nullish (v : JsVal) (e : JsError) :
  nullish v = false -> get0 v ≠ Throw e.
Proof. destruct v as [| | | |s| |]; try done. by destruct s. Qed.

Lemma extract_reply_unexpected (d : JsVal) :
  nullish d = false ->
  truthy (first_choice d) = false ->
  extract_reply d = Throw (Error "Unexpected response format from OpenRouter").
Proof.
  intros Hd Hf. unfold extract_reply, first_choice in *.
  rewrite !(get_get_opt d) by done. unfold mbind, result_bind.
  destruct (truthy (get_opt d "choices")) eqn:Hc.
  - destruct (get0 (get_opt d "choices")) as [v|e] eqn:E.
    + by rewrite Hf.
    + by apply get0_not_nullish in E; [|apply truthy_not_nullish].
  - by rewrite Hf.
Qed.

Lemma extract_reply_expected (d : JsVal) :
  nullish d = false ->
  truthy (first_choice d) = true ->
  nullish (get_opt (first_choice d) "message") = false ->
  extract_reply d
  = Ok {| message := get_opt (get_opt (first_choice d) "message") "content";
          usage := js_or (get_opt d "usage") (VObj []);
          finish_reason := get_opt (first_choice d) "finish_reason" |}.
Proof.
  intros Hd Hf Hm. unfold extract_reply, first_choice in *.
  rewrite !(get_get_opt d) by done. unfold mbind, result_bind.
  destruct (truthy (get_opt d "choices")) eqn:Hc; [|congruence].
  destruct (get0 (get_opt d "choices")) as [v|e] eqn:E.
  - rewrite Hf. rewrite !(get_get_opt v) by (by apply truthy_not_nullish).
    by rewrite get_get_opt.
  - by apply get0_not_nullish in E; [|apply truthy_not_nullish].
Qed.

(** The shapes the test does not cover: a null payload, and a first choice
    without a message. *)
Lemma extract_reply_type_error (d : JsVal) :
  nullish d = true
  \/ (truthy (first_choice d) = true
      /\ nullish (get_opt (first_choice d) "message") = true) ->
  exists s, extract_reply d = Throw (TypeError s)
            /\ s ≠ "Unexpected response format from OpenRouter".
Proof.
  intros [Hd|[Hf Hm]].
  - destruct d; try discriminate; eexists; (split; [reflexivity | discriminate]).
  - assert (nullish d = false) as Hd by (by destruct d).
    unfold extract_reply, first_choice in *.
    rewrite !(get_get_opt d) by done. unfold mbind, result_bind.
    destruct (truthy (get_opt d "choices")) eqn:Hc; [|congruence].
    destruct (get0 (get_opt d "choices")) as [v|e] eqn:E.
    + rewrite Hf. rewrite !(get_get_opt v) by (by apply truthy_not_nullish).
      destruct (get_opt v "message"); try discriminate;
        eexists; (split; [reflexivity | discriminate]).
    + by apply get0_not_nullish in E; [|apply truthy_not_nullish].
Qed.

Lemma selectedModel_converts (v : JsVal) :
  convertible v = true -> exists s, to_string (selectedModel v) = Ok s.
Proof.
  intros Hv. unfold selectedModel, js_or.
  destruct (truthy v); [by apply to_string_convertible | by eexists].
Qed.

(** The chat endpoint answers every request: whatever is thrown in its
    [try] block is turned into a response. *)
Lemma chat_answers (body : Body) : exists r, outcome (chat body) = Ok r.
Proof.
  unfold chat, try_catch.
  destruct (outcome (chat_try body)) eqn:E; simpl; rewrite ?E; eauto.
Qed.

(** An accepted chat request reaches the caller, which sends one
    request. *)
Lemma chat_accepted (body : Body) :
  valid_conversation (messages body) = true ->
  env_truthy OPENROUTER_API_KEY = true ->
  convertible (model body) = true ->
  convertible (max_tokens body) = true ->
  convertible (temperature body) = true ->
  exists mt t,
    let c := chat_completion_call (messages body) (selectedModel (model body))
               (VNum mt) (VNum t) in
    validatedMaxTokens (max_tokens body) = Ok mt
    /\ validatedTemperature (temperature body) = Ok t
    /\ callOpenRouter 0 (messages body) (selectedModel (model body)) (VNum mt) (VNum t)
       = mkNet (settled_as (axios_post 0 c)) [c]
    /\ chat body
       = try_catch
           (mkNet (settled_as (axios_post 0 c)) [c]
              ≫= fun r => mret (chat_reply (selectedModel (model body)) r))
           (fun error => mret (classify error)).
Proof.
  intros Hv Hk Hmodel Hmt Ht.
  destruct (valid_conversation_format _ Hv) as [Hm Hf].
  destruct (validatedMaxTokens_converts _ Hmt) as [mt Emt].
  destruct (validatedTemperature_converts _ Ht) as [t Et].
  destruct (selectedModel_converts _ Hmodel) as [s Hs].
  exists mt, t. intros c. split; [done|]. split; [done|].
  pose proof (callOpenRouter_valid 0 (messages body) (selectedModel (model body))
                (VNum mt) (VNum t) Hv) as Hcall.
  simpl in Hcall. fold c in Hcall. split; [done|].
  unfold chat. by rewrite (chat_try_caller body mt t s), Hcall.
Qed.

(** X28.  When the call is fulfilled with a payload that is not
    null and whose [choices] is missing or has no first element, the caller
    fails with the error 'Unexpected response format from OpenRouter' and
    the chat endpoint answers with a 500 carrying that message.  When the
    first choice is there and has a message, the caller returns the content
    of that message, the reported usage (an empty object when there is
    none) and the reported finish reason, and the chat endpoint answers
    with them.  On a null payload and on a first choice without a message
    the caller fails with a TypeError, which the chat endpoint also answers
    with a 500.  The chat endpoint answers every request: nothing thrown
    while it is served leaves the handler. *)
Theorem upstream_reply_extraction (body : Body) (d : JsVal) :
  valid_conversation (messages body) = true ->
  env_truthy OPENROUTER_API_KEY = true ->
  convertible (model body) = true ->
  convertible (max_tokens body) = true ->
  convertible (temperature body) = true ->
  (forall c, axios_post 0 c = Fulfilled d) ->
  exists mt t,
    let caller := callOpenRouter 0 (messages body) (selectedModel (model body))
                    (VNum mt) (VNum t) in
    validatedMaxTokens (max_tokens body) = Ok mt
    /\ validatedTemperature (temperature body) = Ok t
    /\ (nullish d = false ->
        truthy (first_choice d) = false ->
        outcome caller = Throw (Error "Unexpected response format from OpenRouter")
        /\ chat body
           = mkNet (Ok (error_response 500 "Internal server error"
                          (VStr "Unexpected response format from OpenRouter")))
                   (sent caller))
    /\ (nullish d = false ->
        truthy (first_choice d) = true ->
        nullish (get_opt (first_choice d) "message") = false ->
        let r := {| message := get_opt (get_opt (first_choice d) "message") "content";
                    usage := js_or (get_opt d "usage") (VObj []);
                    finish_reason := get_opt (first_choice d) "finish_reason" |} in
        outcome caller = Ok r
        /\ chat body
           = mkNet (Ok (chat_reply (selectedModel (model body)) r)) (sent caller))
    /\ (nullish d = true
        \/ (truthy (first_choice d) = true
            /\ nullish (get_opt (first_choice d) "message") = true) ->
        exists s,
          s ≠ "Unexpected response format from OpenRouter"
          /\ outcome caller = Throw (TypeError s)
          /\ chat body
             = mkNet (Ok (error_response 500 "Internal server error" (VStr s)))
                     (sent caller))
    /\ (forall body' : Body, exists r, outcome (chat body') = Ok r).
Proof.
  intros Hv Hk Hmodel Hmt Ht Hup.
  destruct (chat_accepted body Hv Hk Hmodel Hmt Ht)
    as (mt & t & Emt & Et & Hcall & Hchat).
  exists mt, t. intros caller. subst caller.
  rewrite Hcall, Hchat, Hup. simpl settled_as.
  split; [done|]. split; [done|]. repeat apply conj.
  - intros Hd Hf. rewrite (extract_reply_unexpected d Hd Hf). by split.
  - intros Hd Hf Hm r. rewrite (extract_reply_expected d Hd Hf Hm). by split.
  - intros (s & -> & Hs)%extract_reply_type_error. exists s. by repeat split.
  - apply chat_answers.
Qed.

(** ** The model named in a chat reply *)

Lemma check_format_early (msgs : list JsVal) (r : Response) :
  check_format msgs = Ok (Some r) -> is_success r = false.
Proof.
  induction msgs as [|msg msgs IH]; [done|]. simpl.
  destruct (lacks_role_or_content msg) as [[]|]; simpl; [|done|done].
  by intros [= <-].
Qed.

Lemma classify_not_success (error : JsError) : is_success (classify error) = false.
Proof.
  unfold classify, classify_status.
  repeat match goal with |- context [if ?b then _ else _] => destruct b end; done.
Qed.

(** A successful chat response is the reply built from the selected
    model. *)
Lemma chat_success_inv (body : Body) (r : Response) :
  outcome (chat body) = Ok r ->
  is_success r = true ->
  exists cr, r = chat_reply (selectedModel (model body)) cr.
Proof.
  unfold chat, chat_try.
  destruct (not_nonempty_array (messages body)); [by intros [= <-]|].
  destruct (check_format (elements (messages body))) as [[r'|]|e] eqn:Hf.
  - rewrite bind_lift_Ok. simpl. intros [= <-] Hs.
    apply check_format_early in Hf. congruence.
  - rewrite bind_lift_Ok.
    destruct (negb (env_truthy OPENROUTER_API_KEY)); [by intros [= <-]|].
    destruct (validatedMaxTokens (max_tokens body)) as [mt|e];
      [|simpl; intros [= <-]; by rewrite classify_not_success].
    rewrite bind_lift_Ok.
    destruct (validatedTemperature (temperature body)) as [t|e];
      [|simpl; intros [= <-]; by rewrite classify_not_success].
    rewrite bind_lift_Ok.
    destruct (to_string (selectedModel (model body))) as [s|e];
      [|simpl; intros [= <-]; by rewrite classify_not_success].
    rewrite bind_lift_Ok. unfold mbind, Net_bind, try_catch.
    destruct (outcome (callOpenRouter _ _ _ _ _)) as [cr|e]; simpl.
    + intros [= <-] _. by exists cr.
    + intros [= <-]. by rewrite classify_not_success.
  - simpl. intros [= <-]. by rewrite classify_not_success.
Qed.

End Properties.

Lemma chat_reply_model (m : JsVal) (cr : CallResult) :
  get_opt (json (chat_reply m cr)) "model" = m.
Proof. reflexivity. Qed.

(** C10.  The model named in a successful chat response is the model of
    the request when it gave one and the configured default otherwise;
    it is the same whatever the upstream service answers. *)
Theorem chat_reply_names_requested_model
    `{Engine} (W : Environment) (body : Body) (r : Response) :
  outcome (chat body) = Ok r ->
  is_success r = true ->
  (truthy (model body) = true -> get_opt (json r) "model" = model body)
  /\ (truthy (model body) = false -> get_opt (json r) "model" = VStr DEFAULT_MODEL)
  /\ (forall (W' : Environment) (r' : Response),
        @cfg W' = @cfg W ->
        outcome (@chat _ W' body) = Ok r' ->
        is_success r' = true ->
        get_opt (json r') "model" = get_opt (json r) "model").
Proof.
  intros Hr Hs. destruct (chat_success_inv body r Hr Hs) as [cr ->].
  rewrite chat_reply_model. repeat apply conj.
  - unfold selectedModel, js_or. by intros ->.
  - unfold selectedModel, js_or. by intros ->.
  - intros W' r' Hcfg Hr' Hs'.
    destruct (@chat_success_inv _ W' body r' Hr' Hs') as [cr' ->].
    rewrite chat_reply_model.
    unfold selectedModel, DEFAULT_MODEL. by rewrite Hcfg.
Qed.

(** * Examples on the sample requests *)

(** The values of the requirement: 999999 tokens become 4000, a
    temperature of 5 becomes 2 and one of -1 becomes 0. *)
Example sample_chat_call :
  (fun c => (req_model (data c), req_max_tokens (data c), req_temperature (data c)))
    <$> sent (@chat sample_engine sample_world sample_body)
  = [(VStr "openai/gpt-oss-20b:free", VNum (num_of_Z 4000), VNum (num_of_Z 2))].
Proof. reflexivity. Qed.

Example negative_temperature :
  @validatedTemperature sample_engine (VNum (num_of_Z (-1))) = Ok (num_of_Z 0).
Proof. reflexivity. Qed.

(** An upstream 429 is passed on as a 429 RateLimitExceeded by the chat
    endpoint. *)
Example limited_chat :
  outcome (@chat sample_engine limited_world sample_body)
  = Ok (error_response 429 "Rate limit exceeded"
          (VStr "Too many requests to OpenRouter API")).
Proof. reflexivity. Qed.

(** One leg answered, one timed out, one refused with a 404: three items
    in the order of the request, whatever the order of completion. *)
Example sample_compare :
  outcome (@compare sample_engine sample_world sample_body [2; 0; 1]%nat)
  = Ok (Some (@compare_reply sample_world
          [VObj [("success", VBool true);
                 ("model", VStr "openai/gpt-4o");
                 ("message", VStr "hello");
                 ("usage", VObj [("total_tokens", VNum (num_of_Z 12))]);
                 ("finish_reason", VStr "stop")];
           VObj [("success", VBool false);
                 ("model", VStr "openai/gpt-4o-mini");
                 ("message", VStr "timeout of 60000ms exceeded");
                 ("error", VBool true);
                 ("error_type", VStr "unknown")];
           VObj [("success", VBool false);
                 ("model", VStr "x/y");
                 ("message", VStr "No such model");
                 ("error", VBool true);
                 ("error_type", VNum (num_of_Z 404))]])).
Proof. reflexivity. Qed.

(** While a leg has not settled the handler has not answered. *)
Example sample_compare_pending :
  outcome (@compare sample_engine sample_world sample_body [2; 0]%nat) = Ok None.
Proof. reflexivity. Qed.

(** The earlier server forwards the parameters as they came and has no
    bound on the model list. *)
Remark earlier_forwards_parameters :
  (fun c => (req_max_tokens (data c), req_temperature (data c)))
    <$> sent (@Earlier.compare sample_engine sample_world sample_body [0; 1; 2]%nat)
  = replicate 3 (VNum (num_of_Z 999999), VNum (num_of_Z 5)).
Proof. reflexivity. Qed.

Remark earlier_takes_six_models :
  length (sent (@Earlier.compare sample_engine sample_world six_models_body
                  [0; 1; 2; 3; 4; 5]%nat)) = 6%nat.
Proof. reflexivity. Qed.

(** * The theorems at the sample requests *)






Lemma invalid_message_rejected_witness :
  let msgs := [msg "user" "hi"; VObj [("content", VStr "hi")]] in
  messages roleless_body = VArr msgs
  /\ msgs ≠ []
  /\ forallb (fun m => negb (nullish m)) msgs = true
  /\ forallb has_role_and_content msgs = false
  /\ @chat sample_engine sample_world roleless_body
     = mkNet (Ok (error_response 400 "Invalid message format"
                    (VStr "Each message must have role and content fields"))) [].
Proof.
  intros msgs.
  split; [reflexivity|]. split; [discriminate|].
  split; [reflexivity|]. split; [reflexivity|].
  apply (@invalid_message_rejected sample_engine sample_world roleless_body
           [] msgs); try reflexivity; discriminate.
Defined.



Lemma empty_body_has_no_conversation :
  ~ (exists l, messages empty_body = VArr l /\ l ≠ []).
Proof. intros (l & Hl & _). discriminate Hl. Defined.

Lemma missing_conversation_rejected_witness :
  ~ (exists l, messages empty_body = VArr l /\ l ≠ [])
  /\ @chat sample_engine sample_world empty_body
     = mkNet (Ok (invalid_request "Messages array is required and must not be empty")) []
  /\ @compare sample_engine sample_world empty_body []
     = mkNet (Ok (Some (invalid_request
                          "Messages array is required and must not be empty"))) [].
Proof.
  split; [apply empty_body_has_no_conversation|].
  destruct (@missing_conversation_rejected sample_engine sample_world
              empty_body [] empty_body_has_no_conversation)
    as (Hchat & Hcompare & _).
  split; [exact Hchat | exact Hcompare].
Defined.

Lemma missing_credential_fails_fast_witness :
  env_truthy (@OPENROUTER_API_KEY keyless_world) = false
  /\ accepted_conversation (messages sample_body) = true
  /\ @chat sample_engine keyless_world sample_body
     = mkNet (Ok configuration_error) [].
Proof.
  split; [reflexivity|]. split; [reflexivity|].
  apply (@missing_credential_fails_fast sample_engine keyless_world
           sample_body []); reflexivity.
Defined.

Lemma upstream_reply_extraction_witness :
  valid_conversation (messages sample_body) = true
  /\ env_truthy (@OPENROUTER_API_KEY empty_world) = true
  /\ convertible (model sample_body) = true
  /\ convertible (max_tokens sample_body) = true
  /\ convertible (temperature sample_body) = true
  /\ (forall c, @axios_post empty_world 0%nat c = Fulfilled (VObj []))
  /\ exists mt t,
       outcome (@callOpenRouter sample_engine empty_world 0 (messages sample_body)
                  (@selectedModel empty_world (model sample_body))
                  (VNum mt) (VNum t))
       = Throw (Error "Unexpected response format from OpenRouter").
Proof.
  do 5 (split; [reflexivity|]). split; [intros c; reflexivity|].
  destruct (@upstream_reply_extraction sample_engine empty_world sample_body
              (VObj []))
    as (mt & t & _ & _ & Hbad & _); try reflexivity.
  exists mt, t. apply Hbad; reflexivity.
Defined.

Lemma chat_reply_names_requested_model_witness :
  let r := chat_reply (VStr "openai/gpt-oss-20b:free")
             {| message := VStr "hello";
                usage := VObj [("total_tokens", VNum (num_of_Z 12))];
                finish_reason := VStr "stop" |} in
  outcome (@chat sample_engine sample_world sample_body) = Ok r
  /\ is_success r = true
  /\ get_opt (json r) "model" = VStr (@DEFAULT_MODEL sample_world).
Proof.
  intros r. split; [reflexivity|]. split; [reflexivity|].
  apply (@chat_reply_names_requested_model sample_engine sample_world
           sample_body r); reflexivity.
Defined.

(** * Where the requirements and the program part *)


(** C5.  A role outside the accepted set is not answered with
    InvalidMessage: the chat endpoint answers with the 500 InternalError of
    the error the caller threw, the compare endpoint with a success whose
    only leg failed.  Nothing is sent upstream in either case. *)
Lemma role_outside_set_is_not_invalid_message :
  @chat sample_engine sample_world bot_body
  = mkNet (Ok (error_response 500 "Internal server error"
                 (VStr "Message role must be user, assistant, or system"))) []
  /\ error_kind (error_response 500 "Internal server error"
                   (VStr "Message role must be user, assistant, or system"))
     = Some InternalError
  /\ @compare sample_engine sample_world bot_body [0]%nat
     = mkNet (Ok (Some (@compare_reply sample_world
                    [VObj [("success", VBool false);
                           ("model", VStr "openai/gpt-4o");
                           ("message",
                            VStr "Message role must be user, assistant, or system");
                           ("error", VBool true);
                           ("error_type", VStr "unknown")]]))) [].
Proof. repeat split. Qed.



(** C9.  The upstream service answers with a payload whose first choice
    has no message.  The payload lacks the reply, yet the caller neither
    returns nor fails with 'Unexpected response format from OpenRouter':
    reading the content raises a TypeError, which the chat endpoint
    reports as a 500 with the message of that TypeError. *)
Lemma first_choice_without_message :
  let caller := @callOpenRouter sample_engine hollow_world 0 (messages sample_body)
                  (VStr "openai/gpt-4o") VUndef VUndef in
  outcome caller
  = Throw (TypeError "Cannot read properties of undefined (reading 'content')")
  /\ outcome caller ≠ Throw (Error "Unexpected response format from OpenRouter")
  /\ (forall r, outcome caller ≠ Ok r)
  /\ outcome (@chat sample_engine hollow_world sample_body)
     = Ok (error_response 500 "Internal server error"
             (VStr "Cannot read properties of undefined (reading 'content')")).
Proof. repeat split; discriminate. Qed.

(** * Further properties of the program *)

Section Coverage.
Context `{Engine} `{Environment}.

(** ** What the program throws *)

Lemma get_throws (v : JsVal) (k : string) (e : JsError) :
  get v k = Throw e -> exists s, e = Error s.
Proof. destruct v; simpl; intros [= <-]; eauto. Qed.

Lemma get0_throws (v : JsVal) (e : JsError) :
  get0 v = Throw e -> exists s, e = Error s.
Proof.
  destruct v as [| | | |s| |]; try destruct s; simpl; intros [= <-]; eauto.
Qed.

Lemma validate_each_throws (msgs : list JsVal) (e : JsError) :
  validate_each msgs = Throw e -> exists s, e = Error s.
Proof.
  induction msgs as [|msg msgs IH]; [done|]. simpl.
  destruct (nullish msg) eqn:Hn.
  - destruct msg; try discriminate; simpl; intros [= <-]; eauto.
  - rewrite lacks_role_or_content_spec, get_role by done.
    destruct (has_role_and_content msg); simpl; [|intros [= <-]; eauto].
    destruct (str_eq _ "user" || _); simpl; [done|intros [= <-]; eauto].
Qed.

Lemma extract_reply_throws (d : JsVal) (e : JsError) :
  extract_reply d = Throw e -> exists s, e = Error s.
Proof.
  unfold extract_reply.
  destruct (get d "choices") as [choices|e1] eqn:E1; simpl;
    [|intros [= <-]; by eapply get_throws].
  destruct (if truthy choices then get0 choices else Ok choices)
    as [first|e2] eqn:E2; simpl.
  2:{ intros [= <-]. destruct (truthy choices); [by eapply get0_throws | discriminate]. }
  destruct (truthy first); [|intros [= <-]; eauto].
  destruct (get first "message") as [m|e3] eqn:E3; simpl;
    [|intros [= <-]; by eapply get_throws].
  destruct (get m "content") as [c|e4] eqn:E4; simpl;
    [|intros [= <-]; by eapply get_throws].
  destruct (get d "usage") as [u|e5] eqn:E5; simpl;
    [|intros [= <-]; by eapply get_throws].
  destruct (get first "finish_reason") as [fr|e6] eqn:E6; simpl;
    [done|intros [= <-]; by eapply get_throws].
Qed.

(** The only conversion that raises is the one of an object with an own
    [toString] key. *)
Lemma to_string_throws (v : JsVal) (e : JsError) :
  to_string v = Throw e ->
  e = TypeError "Cannot convert object to primitive value".
Proof.
  revert e. induction v as [v Hv|l IH] using JsVal_array_ind; intros e.
  - destruct v as [| |[]| | | |kvs]; try discriminate; simpl.
    destruct (assoc "toString" kvs); [by intros [= <-] | discriminate].
  - simpl. induction IH as [|x l Hx _ IHl]; [discriminate|]. simpl.
    destruct (match x with VUndef | VNull => Ok "" | _ => to_string x end)
      as [s|e'] eqn:Ex; simpl.
    + destruct l as [|y l]; [discriminate|].
      destruct (join_elems to_string "," (y :: l)) as [r|e'] eqn:Er;
        simpl; [discriminate|].
      intros [= <-]. by apply IHl.
    + intros [= <-]. apply Hx. by destruct x.
Qed.

Lemma join_throws (l : list JsVal) (sep : string) (e : JsError) :
  join l sep = Throw e ->
  e = TypeError "Cannot convert object to primitive value".
Proof.
  unfold join. induction l as [|x l IHl]; [discriminate|]. simpl.
  destruct (match x with VUndef | VNull => Ok "" | _ => to_string x end)
    as [s|e'] eqn:Ex; simpl.
  - destruct l as [|y l]; [discriminate|].
    destruct (join_elems to_string sep (y :: l)) as [r|e'] eqn:Er;
      simpl; [discriminate|].
    intros [= <-]. by apply IHl.
  - intros [= <-]. apply (to_string_throws x). by destruct x.
Qed.

Lemma to_number_throws (v : JsVal) (e : JsError) :
  to_number v = Throw e ->
  e = TypeError "Cannot convert object to primitive value".
Proof.
  destruct v as [| |[]| | |l|kvs]; try discriminate; unfold to_number.
  - destruct (to_string (VArr l)) eqn:E; simpl; [discriminate|].
    intros [= <-]. by apply to_string_throws in E.
  - destruct (to_string (VObj kvs)) eqn:E; simpl; [discriminate|].
    intros [= <-]. by apply to_string_throws in E.
Qed.

(** On a conversation that is not valid the caller throws a plain error. *)
Lemma callOpenRouter_invalid_Error (i : nat) (messages model mt t : JsVal) :
  valid_conversation messages = false ->
  exists s, callOpenRouter i messages model mt t = mkNet (Throw (Error s)) [].
Proof.
  unfold valid_conversation, callOpenRouter. intros Hv.
  destruct (negb (isArray messages) || (length (elements messages) =? 0)%nat)
    eqn:Hc; cbv iota.
  - rewrite bind_lift_Throw. by eexists.
  - apply orb_false_elim in Hc as [Ha%negb_false_iff Hl].
    rewrite Ha, Hl in Hv. simpl in Hv. rewrite bind_lift_Ok.
    destruct (validate_each (elements messages)) as [[]|e] eqn:E.
    + apply validate_each_passes in E. congruence.
    + destruct (validate_each_throws _ _ E) as [s ->].
      rewrite bind_lift_Throw. by exists s.
Qed.

(** ** The upstream caller *)

(** X1.  [callOpenRouter] makes one attempt at most.  On a conversation
    that is a non-empty array of messages with a content and a role among
    user, assistant and system, it sends exactly one request, with the
    conversation, the model and the two parameters (1000 and 0.7 when they
    are [undefined]), and returns or throws what that call settles as; on
    any other conversation it sends nothing and throws an error without
    status and without code. *)
Theorem caller_single_attempt (i : nat) (messages model mt t : JsVal) :
  let c := chat_completion_call messages model
             (default_arg mt (VNum (num_of_Z 1000)))
             (default_arg t (VNum (Fin (7 # 10)))) in
  if valid_conversation messages
  then callOpenRouter i messages model mt t
       = mkNet (settled_as (axios_post i c)) [c]
  else exists s, callOpenRouter i messages model mt t = mkNet (Throw (Error s)) [].
Proof.
  intros c. destruct (valid_conversation messages) eqn:Hv.
  - by apply callOpenRouter_valid.
  - by apply callOpenRouter_invalid_Error.
Qed.

(** X2.  No error thrown by [callOpenRouter] has a [response]: the one of
    axios is replaced in the [catch] block.  An error with a status comes
    from a call that was answered with that status, and then its [data] is
    the payload of that answer and it has no code.  An error without status
    has no [data]; when the call was answered with an error status all the
    same, the error message of the payload is one that does not convert to
    a string. *)
Theorem caller_errors_carry_no_response
    (i : nat) (messages model mt t : JsVal) (e : JsError) :
  outcome (callOpenRouter i messages model mt t) = Throw e ->
  e_response e = None
  /\ match e_status e with
     | Some st =>
         exists c d msg,
           sent (callOpenRouter i messages model mt t) = [c]
           /\ axios_post i c = HttpError st d msg
           /\ e_data e = d /\ e_code e = None
     | None =>
         e_data e = VUndef
         /\ forall c st d msg,
              sent (callOpenRouter i messages model mt t) = [c] ->
              axios_post i c = HttpError st d msg ->
              convertible (get_opt (get_opt d "error") "message") = false
     end.
Proof.
  destruct (valid_conversation messages) eqn:Hv.
  - rewrite callOpenRouter_valid by done. simpl.
    destruct (axios_post i _) as [d|st d msg|msg code] eqn:Ha; simpl.
    + intros [s ->]%extract_reply_throws. simpl. do 2 (split; [done|]).
      intros c st d' msg [= <-] Hx. congruence.
    + destruct (to_string _) as [s|e'] eqn:Es; simpl; intros [= <-].
      * simpl. split; [done|]. by eexists _, d, msg.
      * apply to_string_throws in Es as He. subst e'. simpl.
        do 2 (split; [done|]).
        intros c st' d' msg' [= <-] Hx. rewrite Ha in Hx.
        injection Hx as _ <- _.
        destruct (convertible (get_opt (get_opt d "error") "message")) eqn:Hc;
          [|done].
        destruct (to_string_convertible
                    (js_or (get_opt (get_opt d "error") "message")
                           (VStr "OpenRouter API error"))) as [s' Hs'];
          [unfold js_or; by destruct (truthy _) | congruence].
    + intros [= <-]. simpl. do 2 (split; [done|]).
      intros c st d msg' [= <-] Hx. congruence.
  - destruct (callOpenRouter_invalid_Error i messages model mt t Hv) as [s ->].
    simpl. intros [= <-]. simpl. do 2 (split; [done|]).
    intros c st d msg Hx. discriminate Hx.
Qed.

(** ** The upstream log of the two endpoints *)

(** Either the chat endpoint sends nothing, or every check has passed and
    the rest of the handler is the one call and what is made of it. *)
Lemma chat_sent_cases (body : Body) :
  sent (chat body) = []
  \/ exists mt t s,
       let c := chat_completion_call (messages body) (selectedModel (model body))
                  (VNum mt) (VNum t) in
       valid_conversation (messages body) = true
       /\ env_truthy OPENROUTER_API_KEY = true
       /\ validatedMaxTokens (max_tokens body) = Ok mt
       /\ validatedTemperature (temperature body) = Ok t
       /\ to_string (selectedModel (model body)) = Ok s
       /\ chat body
          = try_catch
              (mkNet (settled_as (axios_post 0 c)) [c]
                 ≫= fun r => mret (chat_reply (selectedModel (model body)) r))
              (fun error => mret (classify error)).
Proof.
  destruct (chat_try_cases body) as [Hnil|(mt & t & s & Hm & Hf & Hk & Hmt & Ht & Hs)].
  - left. unfold chat. by rewrite try_catch_mret_sent.
  - destruct (valid_conversation (messages body)) eqn:Hv.
    + right. exists mt, t, s. intros c. do 5 (split; [done|]).
      unfold chat. rewrite (chat_try_caller body mt t s) by done.
      by rewrite callOpenRouter_valid.
    + left. unfold chat.
      rewrite try_catch_mret_sent, (chat_try_caller body mt t s) by done.
      rewrite bind_mret_sent, callOpenRouter_sent. by rewrite Hv.
Qed.

Lemma chat_sent_one (body : Body) (mt t : JsNum) :
  let c := chat_completion_call (messages body) (selectedModel (model body))
             (VNum mt) (VNum t) in
  sent (try_catch
          (mkNet (settled_as (axios_post 0 c)) [c]
             ≫= fun r => mret (chat_reply (selectedModel (model body)) r))
          (fun error => mret (classify error))) = [c].
Proof.
  intros c. by rewrite try_catch_mret_sent, bind_mret_sent.
Qed.

(** X3.  The chat endpoint calls the upstream service at most once for a
    request, and it calls it exactly when the conversation is valid for
    the caller, the credential is configured, and the two parameters and
    the selected model convert without raising. *)
Theorem chat_calls_upstream_once (body : Body) :
  (length (sent (chat body)) <= 1)%nat
  /\ (sent (chat body) ≠ [] <->
      valid_conversation (messages body) = true
      /\ env_truthy OPENROUTER_API_KEY = true
      /\ (exists mt, validatedMaxTokens (max_tokens body) = Ok mt)
      /\ (exists t, validatedTemperature (temperature body) = Ok t)
      /\ (exists s, to_string (selectedModel (model body)) = Ok s)).
Proof.
  split.
  - destruct (chat_sent_cases body) as [->|(mt & t & s & Hc)]; [simpl; lia|].
    destruct Hc as (_ & _ & _ & _ & _ & ->). by rewrite chat_sent_one.
  - split.
    + destruct (chat_sent_cases body) as [->|(mt & t & s & Hc)]; [done|].
      destruct Hc as (Hv & Hk & Hmt & Ht & Hs & _). intros _. eauto 10.
    + intros (Hv & Hk & [mt Hmt] & [t Ht] & [s Hs]).
      destruct (valid_conversation_format _ Hv) as [Hm Hf].
      unfold chat.
      rewrite try_catch_mret_sent, (chat_try_caller body mt t s) by done.
      rewrite bind_mret_sent, callOpenRouter_sent. by rewrite Hv.
Qed.

(** Either the compare endpoint sends nothing, or every check has passed
    and the handler is the fan-out and [Promise.all]. *)
Lemma compare_sent_cases (body : Body) (order : list nat) :
  sent (compare body order) = []
  \/ exists mt t s,
       valid_conversation (messages body) = true
       /\ not_nonempty_array (models body) = false
       /\ (5 <? length (elements (models body)))%nat = false
       /\ env_truthy OPENROUTER_API_KEY = true
       /\ validatedMaxTokens (max_tokens body) = Ok mt
       /\ validatedTemperature (temperature body) = Ok t
       /\ join (elements (models body)) ", " = Ok s
       /\ compare body order
          = mkNet
              (Ok (compare_reply
                     <$> promise_all order
                           (imap (leg_item (messages body) (VNum mt) (VNum t))
                                 (elements (models body)))))
              ((fun m => chat_completion_call (messages body) m (VNum mt) (VNum t))
                 <$> elements (models body)).
Proof.
  destruct (compare_try_cases body order)
    as [[Hnil _]|(mt & t & s & Hm & Hms & Hn & Hf & Hk & Hmt & Ht & Hs)].
  - left. unfold compare. by rewrite try_catch_mret_sent.
  - pose proof (compare_launched body order mt t s Hm Hms Hn Hf Hk Hmt Ht Hs) as Hc.
    rewrite launch_sent in Hc.
    destruct (valid_conversation (messages body)) eqn:Hv.
    + right. by exists mt, t, s.
    + left. by rewrite Hc.
Qed.

(** X4.  The compare endpoint sends nothing, or it sends one request for
    each model of the list, in the order of the list, all with the
    conversation of the request and the same two normalised parameters;
    never more than five requests. *)
Theorem compare_fans_out_once_per_model (body : Body) (order : list nat) :
  (length (sent (compare body order)) <= 5)%nat
  /\ (sent (compare body order) = []
      \/ exists mt t,
           validatedMaxTokens (max_tokens body) = Ok mt
           /\ validatedTemperature (temperature body) = Ok t
           /\ (1 <= length (elements (models body)) <= 5)%nat
           /\ sent (compare body order)
              = (fun m => chat_completion_call (messages body) m (VNum mt) (VNum t))
                  <$> elements (models body)).
Proof.
  destruct (compare_sent_cases body order)
    as [->|(mt & t & s & Hv & Hms & Hn & Hk & Hmt & Ht & Hs & ->)].
  - split; [simpl; lia | by left].
  - apply Nat.ltb_ge in Hn.
    apply not_nonempty_array_spec in Hms as (l & Hl & Hne).
    rewrite Hl in *. simpl in *. rewrite length_fmap.
    split; [done|]. right. exists mt, t. do 2 (split; [done|]).
    split; [|done]. destruct l; [done | simpl in *; lia].
Qed.

Lemma env_truthy_Some (o : option string) :
  env_truthy o = true -> exists k, o = Some k /\ k ≠ "".
Proof.
  destruct o as [k|]; [|done]. simpl. intros Hk%negb_true_iff.
  exists k. split; [done|]. intros ->. done.
Qed.

(** X5.  Every request sent upstream, for a chat or a compare request,
    goes to the chat-completion URL of OpenRouter with a timeout of 60000
    ms and carries the configured credential, which is not empty, as a
    bearer token. *)
Theorem upstream_calls_carry_credential
    (body : Body) (order : list nat) (c : PostCall) :
  c ∈ sent (chat body) \/ c ∈ sent (compare body order) ->
  exists k,
    env_OPENROUTER_API_KEY cfg = Some k /\ k ≠ ""
    /\ url c = "https://openrouter.ai/api/v1/chat/completions"
    /\ timeout c = 60000
    /\ headers c
       = [("Authorization", "Bearer " +:+ k);
          ("Content-Type", "application/json");
          ("HTTP-Referer",
           env_or (env_APP_URL cfg) "https://your-render-app.onrender.com");
          ("X-Title", "Roblox AI Chatbot")].
Proof.
  assert (forall m mt t,
            env_truthy OPENROUTER_API_KEY = true ->
            c = chat_completion_call (messages body) m mt t ->
            exists k,
              env_OPENROUTER_API_KEY cfg = Some k /\ k ≠ ""
              /\ url c = "https://openrouter.ai/api/v1/chat/completions"
              /\ timeout c = 60000
              /\ headers c
                 = [("Authorization", "Bearer " +:+ k);
                    ("Content-Type", "application/json");
                    ("HTTP-Referer",
                     env_or (env_APP_URL cfg) "https://your-render-app.onrender.com");
                    ("X-Title", "Roblox AI Chatbot")]) as Hcall.
  { intros m mt t (k & Hk & Hne)%env_truthy_Some ->. exists k.
    unfold OPENROUTER_API_KEY in Hk. do 4 (split; [done|]).
    simpl. unfold request_headers, bearer, OPENROUTER_API_KEY. by rewrite Hk. }
  intros [Hc|Hc].
  - destruct (chat_sent_cases body) as [Hnil|(mt & t & s & Hcase)].
    + rewrite Hnil in Hc. by apply elem_of_nil in Hc.
    + destruct Hcase as (_ & Hk & _ & _ & _ & Hchat).
      rewrite Hchat, chat_sent_one in Hc. apply list_elem_of_singleton in Hc.
      by eapply Hcall.
  - destruct (compare_sent_cases body order)
      as [Hnil|(mt & t & s & _ & _ & _ & Hk & _ & _ & _ & Hcmp)].
    + rewrite Hnil in Hc. by apply elem_of_nil in Hc.
    + rewrite Hcmp in Hc. simpl in Hc.
      apply list_elem_of_fmap in Hc as (m & Hm & _). by eapply Hcall.
Qed.

(** ** The range of the parameters sent upstream *)

Lemma validatedMaxTokens_range (v : JsVal) (n : JsNum) :
  validatedMaxTokens v = Ok n ->
  exists r, n = Fin r /\ (0 < r <= inject_Z 4000)%Q.
Proof.
  unfold validatedMaxTokens, gt_zero, Math_min, mbind, result_bind.
  assert (exists r, num_of_Z 1000 = Fin r /\ (0 < r <= inject_Z 4000)%Q) as Hdef.
  { eexists. split; [reflexivity|]. split; [reflexivity | discriminate]. }
  destruct (truthy v); [|by intros [= <-]].
  destruct (to_number v) as [m|e]; [|discriminate].
  destruct (num_lt (num_of_Z 0) m) eqn:Hlt; [|by intros [= <-]].
  intros [= <-]. destruct m as [| |q|]; try discriminate.
  - apply num_lt_Fin in Hlt.
    destruct (math_min_Fin q (inject_Z 4000)) as (r & Hr & Hmin).
    exists r. split; [exact Hr|]. rewrite Hmin. split.
    + apply Q.min_glb_lt; [exact Hlt | reflexivity].
    + apply Q.le_min_r.
  - exists (inject_Z 4000). split; [reflexivity|].
    split; [reflexivity | apply Qle_refl].
Qed.

Lemma clamp_range (m : JsNum) :
  (m = NaN /\ math_max (num_of_Z 0) (math_min m (num_of_Z 2)) = NaN)
  \/ exists r, math_max (num_of_Z 0) (math_min m (num_of_Z 2)) = Fin r
               /\ (0 <= r <= 2)%Q.
Proof.
  destruct m as [| |q|].
  - by left.
  - right. exists 0%Q. split; [reflexivity|]. split; [apply Qle_refl | discriminate].
  - right. unfold num_of_Z.
    destruct (math_min_Fin q (inject_Z 2)) as (m & -> & Hm).
    destruct (math_max_Fin (inject_Z 0) m) as (r & -> & Hr).
    exists r. split; [done|]. rewrite Hr, Hm. split.
    + apply Q.le_max_l.
    + apply Q.max_lub; [done | apply Q.le_min_r].
  - right. exists 2%Q. split; [reflexivity|]. split; [discriminate | apply Qle_refl].
Qed.

Lemma validatedTemperature_range (v : JsVal) (n : JsNum) :
  validatedTemperature v = Ok n ->
  (n = NaN /\ v ≠ VUndef /\ to_number v = Ok NaN)
  \/ exists r, n = Fin r /\ (0 <= r <= 2)%Q.
Proof.
  assert (v = VUndef \/ v ≠ VUndef) as [->|Hv]
    by (destruct v; [by left | by right..]).
  - intros [= <-]. right. eexists. split; [reflexivity|].
    split; discriminate.
  - assert (validatedTemperature v
            = (m ← to_number v; Ok (math_max (num_of_Z 0) (math_min m (num_of_Z 2)))))
      as -> by (destruct v; try done; unfold validatedTemperature, Math_min;
                by destruct (to_number _)).
    destruct (to_number v) as [m|e]; simpl; [|discriminate].
    intros [= <-]. destruct (clamp_range m) as [[-> Hn]|Hr]; [|by right].
    left. by rewrite Hn.
Qed.

(** X6.  Whatever the [max_tokens] field of the request holds (a number,
    a string, [null], an array...), the [max_tokens] of every request sent
    upstream is a finite number greater than 0 and at most 4000. *)
Theorem sent_max_tokens_in_range (body : Body) (order : list nat) (c : PostCall) :
  c ∈ sent (chat body) \/ c ∈ sent (compare body order) ->
  exists r, req_max_tokens (data c) = VNum (Fin r) /\ (0 < r <= inject_Z 4000)%Q.
Proof.
  intros Hc.
  destruct (sent_parameters body order c Hc) as (mt & t & Hmt & _ & -> & _).
  destruct (validatedMaxTokens_range _ _ Hmt) as (r & -> & Hr). by exists r.
Qed.

(** X7.  Whatever the [temperature] field of the request holds, the
    [temperature] of every request sent upstream is a number between 0 and
    2, or it is NaN; it is NaN only when the field is present and converts
    to NaN. *)
Theorem sent_temperature_in_range (body : Body) (order : list nat) (c : PostCall) :
  c ∈ sent (chat body) \/ c ∈ sent (compare body order) ->
  (req_temperature (data c) = VNum NaN
   /\ temperature body ≠ VUndef
   /\ to_number (temperature body) = Ok NaN)
  \/ exists r, req_temperature (data c) = VNum (Fin r) /\ (0 <= r <= 2)%Q.
Proof.
  intros Hc.
  destruct (sent_parameters body order c Hc) as (mt & t & _ & Ht & _ & -> & _).
  destruct (validatedTemperature_range _ _ Ht) as [(-> & Hne & Hn)|(r & -> & Hr)].
  - by left.
  - right. by exists r.
Qed.

(** ** The chat endpoint, end to end *)

Lemma chat_tail_Throw (l : list PostCall) (e : JsError) (f : CallResult -> Response) :
  try_catch (mkNet (Throw e) l ≫= fun r => mret (f r))
            (fun error => mret (classify error))
  = mkNet (Ok (classify e)) l.
Proof. unfold try_catch, mbind, Net_bind. simpl. by rewrite app_nil_r. Qed.

Lemma chat_tail_Ok (l : list PostCall) (cr : CallResult) (f : CallResult -> Response) :
  try_catch (mkNet (Ok cr) l ≫= fun r => mret (f r))
            (fun error => mret (classify error))
  = mkNet (Ok (f cr)) l.
Proof. unfold try_catch, mbind, Net_bind. simpl. by rewrite app_nil_r. Qed.

Lemma classify_with_status (e : JsError) (st : Z) :
  e_status e = Some st -> st ≠ 0 -> classify e = classify_status st (e_data e).
Proof.
  intros He Hst. unfold classify. by rewrite He, status_truthy.
Qed.

Lemma classify_Error (s : string) :
  classify (Error s) = error_response 500 "Internal server error" (VStr s).
Proof. reflexivity. Qed.

Lemma to_string_Ok_convertible (v : JsVal) (s : string) :
  to_string v = Ok s -> convertible v = true.
Proof.
  revert s. induction v as [v Hv|l IH] using JsVal_array_ind; intros s.
  - destruct v as [| |[]| | | |kvs]; try discriminate; simpl; try done.
    by destruct (assoc "toString" kvs).
  - simpl. revert s. induction IH as [|x l Hx _ IHl]; intros s; [done|]. simpl.
    destruct (match x with VUndef | VNull => Ok "" | _ => to_string x end)
      as [sx|e] eqn:Ex; simpl; [|discriminate].
    assert (convertible x = true) as ->
      by (destruct x; try done; by eapply Hx).
    destruct l as [|y l]; [done|].
    destruct (join_elems to_string "," (y :: l)) as [r|e] eqn:Er;
      simpl; [|discriminate].
    intros _. by eapply IHl.
Qed.

Lemma to_string_not_convertible (v : JsVal) :
  convertible v = false ->
  to_string v = Throw (TypeError "Cannot convert object to primitive value").
Proof.
  intros Hv. destruct (to_string v) as [s|e] eqn:E.
  - apply to_string_Ok_convertible in E. congruence.
  - by apply to_string_throws in E as ->.
Qed.

Lemma join_Ok_convertible (l : list JsVal) (sep s : string) :
  join l sep = Ok s -> forallb convertible l = true.
Proof.
  unfold join. revert s. induction l as [|x l IHl]; intros s; [done|]. simpl.
  destruct (match x with VUndef | VNull => Ok "" | _ => to_string x end)
    as [sx|e] eqn:Ex; simpl; [|discriminate].
  assert (convertible x = true) as ->
    by (destruct x; try done; by eapply to_string_Ok_convertible).
  destruct l as [|y l]; [done|].
  destruct (join_elems to_string sep (y :: l)) as [r|e] eqn:Er;
    simpl; [|discriminate].
  intros _. by eapply IHl.
Qed.

Lemma join_not_convertible (l : list JsVal) (sep : string) :
  forallb convertible l = false ->
  join l sep = Throw (TypeError "Cannot convert object to primitive value").
Proof.
  intros Hl. destruct (join l sep) as [s|e] eqn:E.
  - apply join_Ok_convertible in E. congruence.
  - by apply join_throws in E as ->.
Qed.

(** What the caller makes of an answer with an error status. *)
Lemma settled_as_HttpError (st : Z) (d : JsVal) (m : string) :
  settled_as (HttpError st d m)
  = if convertible (get_opt (get_opt d "error") "message")
    then match to_string (js_or (get_opt (get_opt d "error") "message")
                                (VStr "OpenRouter API error")) with
         | Ok s => Throw {| e_message := s; e_status := Some st; e_code := None;
                            e_data := d; e_response := None |}
         | Throw e => Throw e
         end
    else Throw (TypeError "Cannot convert object to primitive value").
Proof.
  unfold settled_as, mbind, result_bind.
  destruct (convertible _) eqn:Hc; [done|].
  assert (js_or (get_opt (get_opt d "error") "message") (VStr "OpenRouter API error")
          = get_opt (get_opt d "error") "message") as ->
    by (unfold js_or; by destruct (get_opt (get_opt d "error") "message")).
  by rewrite to_string_not_convertible.
Qed.

Lemma upstream_message_converts (d : JsVal) :
  convertible (get_opt (get_opt d "error") "message") = true ->
  exists s, to_string (js_or (get_opt (get_opt d "error") "message")
                             (VStr "OpenRouter API error")) = Ok s.
Proof.
  intros Hc. apply to_string_convertible. unfold js_or. by destruct (truthy _).
Qed.

Lemma chat_on_http_error (body : Body) (st : Z) (d : JsVal) (m : string) :
  valid_conversation (messages body) = true ->
  env_truthy OPENROUTER_API_KEY = true ->
  convertible (model body) = true ->
  convertible (max_tokens body) = true ->
  convertible (temperature body) = true ->
  (forall c, axios_post 0 c = HttpError st d m) ->
  st ≠ 0 ->
  convertible (get_opt (get_opt d "error") "message") = true ->
  exists c, chat body = mkNet (Ok (classify_status st d)) [c].
Proof.
  intros Hv Hk Hmodel Hmt Ht Hup Hst Hmsg.
  destruct (chat_accepted body Hv Hk Hmodel Hmt Ht)
    as (mt & t & Emt & Et & Hcall & Hchat).
  destruct (upstream_message_converts d Hmsg) as [s Hs].
  eexists. rewrite Hchat, Hup, settled_as_HttpError, Hmsg, Hs, chat_tail_Throw.
  by rewrite (classify_with_status _ st).
Qed.

(** X8.  When the upstream service answers a chat request with an error
    status, the endpoint answers with that same status: with the fixed
    texts of the table for 401, 402, 404 and 429, and with the message of
    the upstream answer (or a default text) for 400 and for any other
    status.  One request was sent. *)
Theorem chat_passes_upstream_status_on
    (body : Body) (st : Z) (d : JsVal) (m : string) :
  valid_conversation (messages body) = true ->
  env_truthy OPENROUTER_API_KEY = true ->
  convertible (model body) = true ->
  convertible (max_tokens body) = true ->
  convertible (temperature body) = true ->
  (forall c, axios_post 0 c = HttpError st d m) ->
  st ≠ 0 ->
  convertible (get_opt (get_opt d "error") "message") = true ->
  exists c,
    chat body = mkNet (Ok (classify_status st d)) [c]
    /\ status (classify_status st d) = st
    /\ error_kind (classify_status st d) = Some (kind_of_status status_table st)
    /\ (kind_of_status status_table st = UpstreamError ->
        json (classify_status st d)
        = VObj [("error", VStr "OpenRouter API error");
                ("message", js_or (get_opt (get_opt d "error") "message")
                                  (VStr "Unknown error occurred"))]).
Proof.
  intros Hv Hk Hmodel Hmt Ht Hup Hst Hmsg.
  destruct (chat_on_http_error body st d m) as [c Hc]; try done.
  exists c. split; [done|]. split; [apply classify_status_kind|].
  split; [apply classify_status_kind|].
  unfold classify_status, kind_of_status, status_table.
  repeat match goal with |- context [?a =? ?b] => destruct (a =? b) end; done.
Qed.

(** X9.  When the call of a chat request fails without an answer, the
    endpoint answers 504 for the codes ECONNABORTED and ETIMEDOUT, 503 for
    ECONNREFUSED and ENOTFOUND, and otherwise 500 with the message of the
    failure.  One request was sent. *)
Theorem chat_reports_transport_failure
    (body : Body) (m : string) (code : option string) :
  valid_conversation (messages body) = true ->
  env_truthy OPENROUTER_API_KEY = true ->
  convertible (model body) = true ->
  convertible (max_tokens body) = true ->
  convertible (temperature body) = true ->
  (forall c, axios_post 0 c = TransportError m code) ->
  exists c r,
    chat body = mkNet (Ok r) [c]
    /\ r = match code with
           | Some k =>
               if existsb (String.eqb k) ["ECONNABORTED"; "ETIMEDOUT"]
               then error_response 504 "Gateway timeout"
                      (VStr "Request to OpenRouter API timed out")
               else if existsb (String.eqb k) ["ECONNREFUSED"; "ENOTFOUND"]
               then error_response 503 "Service unavailable"
                      (VStr "Unable to reach OpenRouter API")
               else error_response 500 "Internal server error" (VStr m)
           | None => error_response 500 "Internal server error" (VStr m)
           end.
Proof.
  intros Hv Hk Hmodel Hmt Ht Hup.
  destruct (chat_accepted body Hv Hk Hmodel Hmt Ht)
    as (mt & t & Emt & Et & Hcall & Hchat).
  eexists _, _. rewrite Hchat, Hup. simpl settled_as. rewrite chat_tail_Throw.
  split; [reflexivity|].
  unfold classify, code_is. simpl e_status. simpl e_code. simpl e_message.
  change (truthy (status_value None)) with false. cbv iota.
  destruct code as [k|]; [|done]. cbn [existsb].
  rewrite !orb_false_r. done.
Qed.

(** X10.  When the error message of the upstream answer is an object that
    does not convert to a string (it has an own [toString] key), building
    the error in the [catch] block of the caller raises: the caller throws
    a TypeError without status, and the chat endpoint answers 500, not the
    status of the upstream answer. *)
Theorem unprintable_upstream_message_loses_status
    (body : Body) (st : Z) (d : JsVal) (m : string) :
  valid_conversation (messages body) = true ->
  env_truthy OPENROUTER_API_KEY = true ->
  convertible (model body) = true ->
  convertible (max_tokens body) = true ->
  convertible (temperature body) = true ->
  (forall c, axios_post 0 c = HttpError st d m) ->
  convertible (get_opt (get_opt d "error") "message") = false ->
  exists mt t c,
    callOpenRouter 0 (messages body) (selectedModel (model body)) (VNum mt) (VNum t)
    = mkNet (Throw (TypeError "Cannot convert object to primitive value")) [c]
    /\ chat body
       = mkNet (Ok (error_response 500 "Internal server error"
                      (VStr "Cannot convert object to primitive value"))) [c].
Proof.
  intros Hv Hk Hmodel Hmt Ht Hup Hmsg.
  destruct (chat_accepted body Hv Hk Hmodel Hmt Ht)
    as (mt & t & Emt & Et & Hcall & Hchat).
  exists mt, t. eexists.
  rewrite Hcall, Hchat, Hup, settled_as_HttpError, Hmsg, chat_tail_Throw.
  by split.
Qed.

(** Either the chat endpoint answers with a labelled error without calling
    the upstream service, or every check has passed and the rest of the
    handler is the one call and what is made of it. *)
Lemma check_format_early_eq (msgs : list JsVal) (r : Response) :
  check_format msgs = Ok (Some r) ->
  r = error_response 400 "Invalid message format"
        (VStr "Each message must have role and content fields").
Proof.
  induction msgs as [|msg msgs IH]; [done|]. simpl.
  destruct (lacks_role_or_content msg) as [[]|]; simpl; [|done|done].
  by intros [= <-].
Qed.

Lemma classify_labelled (error : JsError) :
  is_success (classify error) = false
  /\ exists k, error_kind (classify error) = Some k.
Proof.
  split; [apply classify_not_success|].
  unfold classify.
  destruct (truthy _); [eexists; apply classify_status_kind|].
  repeat match goal with |- context [if ?b then _ else _] => destruct b end;
    by eexists.
Qed.

Lemma chat_rejects_or_calls (body : Body) :
  (exists r, chat body = mkNet (Ok r) []
             /\ is_success r = false /\ exists k, error_kind r = Some k)
  \/ exists mt t s,
       let c := chat_completion_call (messages body) (selectedModel (model body))
                  (VNum mt) (VNum t) in
       not_nonempty_array (messages body) = false
       /\ check_format (elements (messages body)) = Ok None
       /\ env_truthy OPENROUTER_API_KEY = true
       /\ validatedMaxTokens (max_tokens body) = Ok mt
       /\ validatedTemperature (temperature body) = Ok t
       /\ to_string (selectedModel (model body)) = Ok s
       /\ valid_conversation (messages body) = true
       /\ chat body
          = try_catch
              (mkNet (settled_as (axios_post 0 c)) [c]
                 ≫= fun r => mret (chat_reply (selectedModel (model body)) r))
              (fun error => mret (classify error)).
Proof.
  assert (forall e, exists r, @mkNet Response (Ok (classify e)) [] = mkNet (Ok r) []
                    /\ is_success r = false /\ exists k, error_kind r = Some k)
    as Hcatch by (intros e; eexists; split; [done | apply classify_labelled]).
  unfold chat at 1. unfold chat_try.
  destruct (not_nonempty_array (messages body)) eqn:Hm.
  { left. eexists. split; [reflexivity|]. split; [done | by eexists]. }
  destruct (check_format (elements (messages body))) as [[r'|]|e] eqn:Hf.
  - left. rewrite bind_lift_Ok. apply check_format_early_eq in Hf as ->.
    eexists. split; [reflexivity|]. split; [done | by eexists].
  - rewrite bind_lift_Ok.
    destruct (env_truthy OPENROUTER_API_KEY) eqn:Hk; simpl negb; cbv iota.
    2:{ left. eexists. split; [reflexivity|]. split; [done | by eexists]. }
    destruct (validatedMaxTokens (max_tokens body)) as [mt|e] eqn:Hmt;
      [|left; apply Hcatch].
    rewrite bind_lift_Ok.
    destruct (validatedTemperature (temperature body)) as [t|e] eqn:Ht;
      [|left; apply Hcatch].
    rewrite bind_lift_Ok.
    destruct (to_string (selectedModel (model body))) as [s|e] eqn:Hs;
      [|left; apply Hcatch].
    rewrite bind_lift_Ok.
    destruct (valid_conversation (messages body)) eqn:Hv.
    + right. exists mt, t, s. do 7 (split; [done|]).
      unfold chat. rewrite (chat_try_caller body mt t s) by done.
      by rewrite callOpenRouter_valid.
    + left.
      destruct (callOpenRouter_invalid_Error 0 (messages body)
                  (selectedModel (model body)) (VNum mt) (VNum t) Hv) as [s' ->].
      rewrite chat_tail_Throw. apply Hcatch.
  - left. apply Hcatch.
Qed.

Lemma settled_as_failure (o : AxiosOutcome) :
  (forall d, o ≠ Fulfilled d) -> exists e, settled_as o = Throw e.
Proof.
  intros Ho. destruct o as [d|st d m|m code]; [by destruct (Ho d)| |by eexists].
  unfold settled_as, mbind, result_bind. destruct (to_string _); by eexists.
Qed.

(** X11.  A chat response that says [success: true] has status 200 and
    comes from exactly one upstream call, which was fulfilled with a
    payload from which the caller extracted the reply the response
    carries. *)
Theorem chat_success_comes_from_upstream (body : Body) (r : Response) :
  outcome (chat body) = Ok r ->
  is_success r = true ->
  exists c d cr,
    sent (chat body) = [c]
    /\ axios_post 0 c = Fulfilled d
    /\ extract_reply d = Ok cr
    /\ r = chat_reply (selectedModel (model body)) cr
    /\ status r = 200.
Proof.
  destruct (chat_rejects_or_calls body)
    as [(r' & -> & Hr' & _)|(mt & t & s & _ & _ & _ & _ & _ & _ & Hv & ->)].
  - simpl. intros [= <-]. congruence.
  - destruct (axios_post 0 _) as [d|st d m|m code] eqn:Ha.
    + simpl settled_as. destruct (extract_reply d) as [cr|e] eqn:Ed.
      * rewrite chat_tail_Ok. simpl. intros [= <-] _. by eexists _, d, cr.
      * rewrite chat_tail_Throw. simpl. intros [= <-].
        by rewrite classify_not_success.
    + destruct (settled_as_failure (HttpError st d m)) as [e ->]; [done|].
      rewrite chat_tail_Throw. simpl. intros [= <-].
      by rewrite classify_not_success.
    + destruct (settled_as_failure (TransportError m code)) as [e ->]; [done|].
      rewrite chat_tail_Throw. simpl. intros [= <-].
      by rewrite classify_not_success.
Qed.

(** ** The compare endpoint, end to end *)

(** Either the compare endpoint answers with a labelled error without
    calling the upstream service, whatever the order, or every check has
    passed and the handler is the fan-out and [Promise.all]. *)
Lemma compare_rejects_or_launches (body : Body) :
  (exists r, (forall order, compare body order = mkNet (Ok (Some r)) [])
             /\ is_success r = false /\ exists k, error_kind r = Some k)
  \/ exists mt t s,
       not_nonempty_array (messages body) = false
       /\ not_nonempty_array (models body) = false
       /\ (5 <? length (elements (models body)))%nat = false
       /\ check_format (elements (messages body)) = Ok None
       /\ env_truthy OPENROUTER_API_KEY = true
       /\ validatedMaxTokens (max_tokens body) = Ok mt
       /\ validatedTemperature (temperature body) = Ok t
       /\ join (elements (models body)) ", " = Ok s
       /\ forall order,
            compare body order
            = mkNet
                (Ok (compare_reply
                       <$> promise_all order
                             (imap (leg_item (messages body) (VNum mt) (VNum t))
                                   (elements (models body)))))
                (if valid_conversation (messages body)
                 then (fun m => chat_completion_call (messages body) m
                                  (VNum mt) (VNum t)) <$> elements (models body)
                 else []).
Proof.
  destruct (not_nonempty_array (messages body)) eqn:Hm.
  { left. eexists. split.
    { intros order. unfold compare, compare_try. by rewrite Hm. }
    split; [done | by eexists]. }
  destruct (not_nonempty_array (models body)) eqn:Hms.
  { left. eexists. split.
    { intros order. unfold compare, compare_try. by rewrite Hm, Hms. }
    split; [done | by eexists]. }
  destruct (5 <? length (elements (models body)))%nat eqn:Hn.
  { left. eexists. split.
    { intros order. unfold compare, compare_try. by rewrite Hm, Hms, Hn. }
    split; [done | by eexists]. }
  destruct (check_format (elements (messages body))) as [[r'|]|e] eqn:Hf.
  - left. exists r'. pose proof (check_format_early_eq _ _ Hf) as Hr'.
    split; [|by rewrite Hr'; split; [|eexists]].
    intros order. unfold compare, compare_try. by rewrite Hm, Hms, Hn, Hf.
  - destruct (env_truthy OPENROUTER_API_KEY) eqn:Hk.
    2:{ left. eexists. split.
        { intros order. unfold compare, compare_try.
          by rewrite Hm, Hms, Hn, Hf, bind_lift_Ok, Hk. }
        split; [done | by eexists]. }
    destruct (validatedMaxTokens (max_tokens body)) as [mt|e] eqn:Hmt.
    2:{ left. eexists. split.
        { intros order. unfold compare, compare_try.
          by rewrite Hm, Hms, Hn, Hf, bind_lift_Ok, Hk, Hmt. }
        split; [done | by eexists]. }
    destruct (validatedTemperature (temperature body)) as [t|e] eqn:Ht.
    2:{ left. eexists. split.
        { intros order. unfold compare, compare_try.
          by rewrite Hm, Hms, Hn, Hf, bind_lift_Ok, Hk, Hmt, bind_lift_Ok, Ht. }
        split; [done | by eexists]. }
    destruct (join (elements (models body)) ", ") as [s|e] eqn:Hs.
    2:{ left. eexists. split.
        { intros order. unfold compare, compare_try.
          by rewrite Hm, Hms, Hn, Hf, bind_lift_Ok, Hk, Hmt, bind_lift_Ok, Ht,
                     bind_lift_Ok, Hs. }
        split; [done | by eexists]. }
    right. exists mt, t, s. do 8 (split; [done|]). intros order.
    rewrite (compare_launched body order mt t s) by done.
    by rewrite launch_sent.
  - left. eexists. split.
    { intros order. unfold compare, compare_try. by rewrite Hm, Hms, Hn, Hf. }
    split; [done | by eexists].
Qed.

(** [Promise.all] resolves with the values of the promises, in index
    order, or not at all. *)
Lemma promise_all_Some {A} (order : list nat) (legs l : list A) :
  promise_all order legs = Some l -> l = legs.
Proof.
  unfold promise_all. intros Hall%mapM_Some.
  pose proof (Forall2_length _ _ _ Hall) as Hlen.
  rewrite settle_all_length in Hlen.
  apply list_eq. intros j.
  destruct (legs !! j) as [v|] eqn:Hj.
  - assert (j < length legs)%nat as Hlt by (by eapply lookup_lt_Some).
    pose proof (settle_all_lookup legs order j Hlt) as Hslot.
    destruct (Forall2_lookup_l _ _ _ _ _ Hall Hslot) as (y & Hy & Hid).
    simpl in Hid. destruct (bool_decide (j ∈ order)); [|done].
    rewrite Hy. congruence.
  - apply lookup_ge_None in Hj. apply lookup_ge_None. lia.
Qed.

Lemma settles_all_dec (n : nat) (order : list nat) :
  settles_all n order \/ exists j, (j < n)%nat /\ j ∉ order.
Proof.
  induction n as [|n [IH|(j & Hj & Hn)]].
  - left. intros i Hi. lia.
  - destruct (decide (n ∈ order)) as [Hin|Hout].
    + left. intros i Hi. destruct (decide (i = n)) as [->|Hne]; [done|].
      apply IH. lia.
    + right. exists n. split; [lia | done].
  - right. exists j. split; [lia | done].
Qed.

(** X12.  Every response of the two endpoints either says
    [success: true], and then has status 200, or carries one of the error
    labels of the program. *)
Theorem responses_are_success_or_labelled
    (body : Body) (order : list nat) (r : Response) :
  outcome (chat body) = Ok r \/ outcome (compare body order) = Ok (Some r) ->
  if is_success r then status r = 200 else exists k, error_kind r = Some k.
Proof.
  intros [Hr|Hr].
  - destruct (chat_rejects_or_calls body)
      as [(r' & Hchat & Hs & Hk)|(mt & t & s & _ & _ & _ & _ & _ & _ & Hv & Hchat)];
      rewrite Hchat in Hr.
    + injection Hr as <-. by rewrite Hs.
    + destruct (settled_as _) as [cr|e].
      * rewrite chat_tail_Ok in Hr. by injection Hr as <-.
      * rewrite chat_tail_Throw in Hr. injection Hr as <-.
        destruct (classify_labelled e) as [-> Hk]. done.
  - destruct (compare_rejects_or_launches body)
      as [(r' & Hcmp & Hs & Hk)|(mt & t & s & _ & _ & _ & _ & _ & _ & _ & _ & Hcmp)];
      rewrite Hcmp in Hr.
    + injection Hr as <-. by rewrite Hs.
    + simpl in Hr. destruct (promise_all order _); [|done].
      by injection Hr as <-.
Qed.

(** X13.  The order in which the upstream calls complete has no effect on
    what the compare endpoint sends upstream, nor on the response: two
    runs of the same request that both answer give the same response. *)
Theorem compare_is_order_independent
    (body : Body) (order1 order2 : list nat) :
  sent (compare body order1) = sent (compare body order2)
  /\ forall r1 r2,
       outcome (compare body order1) = Ok (Some r1) ->
       outcome (compare body order2) = Ok (Some r2) ->
       r1 = r2.
Proof.
  destruct (compare_rejects_or_launches body)
    as [(r' & Hcmp & _)|(mt & t & s & _ & _ & _ & _ & _ & _ & _ & _ & Hcmp)];
    rewrite !Hcmp; simpl; (split; [done|]); intros r1 r2.
  - congruence.
  - destruct (promise_all order1 _) as [l1|] eqn:E1; [|done].
    destruct (promise_all order2 _) as [l2|] eqn:E2; [|done].
    apply promise_all_Some in E1, E2. simpl. congruence.
Qed.

(** X14.  For a validated compare request, the endpoint has not answered
    exactly while some leg has not settled. *)
Theorem compare_waits_for_every_leg
    (body : Body) (order : list nat) (ms : list JsVal) :
  accepted_conversation (messages body) = true ->
  models body = VArr ms ->
  (1 <= length ms <= 5)%nat ->
  env_truthy OPENROUTER_API_KEY = true ->
  convertible (models body) = true ->
  convertible (max_tokens body) = true ->
  convertible (temperature body) = true ->
  outcome (compare body order) = Ok None
  <-> exists j, (j < length ms)%nat /\ j ∉ order.
Proof.
  intros Hacc Hms Hlen Hk Hc Hmt Ht.
  destruct (compare_accepted body order ms) as (mt & t & _ & _ & ->); try done.
  simpl. split.
  - intros Hnone. destruct (settles_all_dec (length ms) order) as [Hall|Hj]; [|done].
    rewrite promise_all_resolves in Hnone by (by rewrite length_imap). done.
  - intros (j & Hj & Hout).
    by rewrite (promise_all_pending _ order j) by (by rewrite ?length_imap).
Qed.

(** ** Conversations the handlers let through but the caller refuses *)

Lemma validate_each_unknown_role (msgs : list JsVal) :
  forallb has_role_and_content msgs = true ->
  forallb valid_message msgs = false ->
  validate_each msgs
  = Throw (Error "Message role must be user, assistant, or system").
Proof.
  induction msgs as [|msg msgs IH]; [done|].
  intros [Hm Hrest]%andb_prop Hv.
  cbn [forallb] in Hv. unfold valid_message at 1 in Hv. rewrite Hm in Hv.
  cbn [andb] in Hv. cbn [validate_each].
  rewrite lacks_role_or_content_spec, get_role
    by (by apply has_role_and_content_not_nullish).
  rewrite Hm. unfold mbind, result_bind. cbn [negb].
  fold (role_allowed msg). destruct (role_allowed msg); simpl in Hv |- *;
    [by apply IH | done].
Qed.

Lemma callOpenRouter_unknown_role (i : nat) (messages model mt t : JsVal) :
  accepted_conversation messages = true ->
  valid_conversation messages = false ->
  callOpenRouter i messages model mt t
  = mkNet (Throw (Error "Message role must be user, assistant, or system")) [].
Proof.
  unfold accepted_conversation, valid_conversation.
  intros [[Ha Hl]%andb_prop Hf]%andb_prop Hv.
  rewrite Ha, Hl in Hv. simpl in Hv. apply negb_true_iff in Hl.
  unfold callOpenRouter. rewrite Ha, Hl. simpl negb. simpl orb. cbv iota.
  by rewrite bind_lift_Ok, validate_each_unknown_role.
Qed.

(** X15.  A conversation whose messages all have a role and a content,
    one of them with a role outside user, assistant and system, passes the
    validation of both handlers and is refused by the caller, before any
    request is sent: the chat endpoint answers 500 with the text of the
    caller's error, and the compare endpoint answers 200 with one failed
    item for each model, whose [error_type] is 'unknown'. *)
Theorem unknown_role_passes_the_handlers
    (body : Body) (order : list nat) (ms : list JsVal) :
  accepted_conversation (messages body) = true ->
  valid_conversation (messages body) = false ->
  env_truthy OPENROUTER_API_KEY = true ->
  convertible (model body) = true ->
  convertible (max_tokens body) = true ->
  convertible (temperature body) = true ->
  chat body
  = mkNet (Ok (error_response 500 "Internal server error"
                 (VStr "Message role must be user, assistant, or system"))) []
  /\ (models body = VArr ms ->
      (1 <= length ms <= 5)%nat ->
      convertible (models body) = true ->
      settles_all (length ms) order ->
      compare body order
      = mkNet
          (Ok (Some (compare_reply
             ((fun m =>
                 VObj [("success", VBool false);
                       ("model", m);
                       ("message",
                        VStr "Message role must be user, assistant, or system");
                       ("error", VBool true);
                       ("error_type", VStr "unknown")]) <$> ms))))
          []).
Proof.
  intros Hacc Hv Hk Hmodel Hmt Ht. split.
  - destruct (accepted_conversation_inv _ Hacc) as [Hm Hf].
    destruct (validatedMaxTokens_converts _ Hmt) as [mt Emt].
    destruct (validatedTemperature_converts _ Ht) as [t Et].
    destruct (selectedModel_converts _ Hmodel) as [s Hs].
    unfold chat. rewrite (chat_try_caller body mt t s) by done.
    by rewrite callOpenRouter_unknown_role, chat_tail_Throw.
  - intros Hms Hlen Hc Hall.
    destruct (compare_accepted body order ms) as (mt & t & _ & _ & ->); try done.
    rewrite launch_sent, Hv.
    rewrite promise_all_resolves by (by rewrite length_imap).
    simpl. do 4 f_equal.
    rewrite <- imap_const. apply imap_ext. intros j m _.
    unfold leg_item. by rewrite callOpenRouter_unknown_role.
Qed.

Lemma check_format_null (pre post : list JsVal) (m : JsVal) :
  forallb has_role_and_content pre = true ->
  nullish m = true ->
  exists s, get m "role" = Throw (TypeError s)
            /\ check_format (pre ++ m :: post) = Throw (TypeError s).
Proof.
  intros Hpre Hm. induction pre as [|x pre IH].
  - destruct m; try discriminate; eexists; split; reflexivity.
  - apply andb_prop in Hpre as [Hx Hpre]. destruct (IH Hpre) as (s & Hs & Hcf).
    exists s. split; [done|]. simpl.
    rewrite lacks_role_or_content_spec
      by (by apply has_role_and_content_not_nullish).
    by rewrite Hx.
Qed.

(** X16.  A conversation in which the first message without role or
    content is [null] is not answered with the 400 of an invalid message:
    reading [msg.role] raises in the loop of the handler, and both
    endpoints answer 500 with the text of that TypeError, before any
    request is sent. *)
Theorem null_message_is_internal_error
    (body : Body) (order : list nat) (pre post : list JsVal) (m : JsVal) :
  messages body = VArr (pre ++ m :: post) ->
  forallb has_role_and_content pre = true ->
  nullish m = true ->
  exists s,
    get m "role" = Throw (TypeError s)
    /\ chat body
       = mkNet (Ok (error_response 500 "Internal server error" (VStr s))) []
    /\ ((exists l, models body = VArr l /\ (1 <= length l <= 5)%nat) ->
        compare body order
        = mkNet (Ok (Some (error_response 500 "Internal server error" (VStr s)))) []).
Proof.
  intros Hbody Hpre Hm.
  destruct (check_format_null pre post m Hpre Hm) as (s & Hs & Hcf).
  assert (not_nonempty_array (messages body) = false) as Hok.
  { apply not_nonempty_array_spec. eexists. split; [exact Hbody|].
    by destruct pre. }
  exists s. split; [done|]. split.
  - unfold chat, chat_try. rewrite Hok, Hbody. simpl elements. by rewrite Hcf.
  - intros [Hms Hn]%models_in_bounds.
    unfold compare, compare_try. rewrite Hok, Hms, Hn, Hbody. simpl elements.
    by rewrite Hcf.
Qed.

(** X17.  The handlers print the model, or the list of models, before
    they call the caller.  A model that does not convert to a string (an
    object with an own [toString] key, directly or in an array) makes that
    line raise: both endpoints answer 500 and nothing is sent. *)
Theorem unprintable_model_is_internal_error (body : Body) (order : list nat) :
  accepted_conversation (messages body) = true ->
  env_truthy OPENROUTER_API_KEY = true ->
  convertible (max_tokens body) = true ->
  convertible (temperature body) = true ->
  let r := error_response 500 "Internal server error"
             (VStr "Cannot convert object to primitive value") in
  (convertible (model body) = false -> chat body = mkNet (Ok r) [])
  /\ ((exists l, models body = VArr l /\ (1 <= length l <= 5)%nat) ->
      convertible (models body) = false ->
      compare body order = mkNet (Ok (Some r)) []).
Proof.
  intros Hacc Hk Hmt Ht r.
  destruct (accepted_conversation_inv _ Hacc) as [Hm Hf].
  destruct (validatedMaxTokens_converts _ Hmt) as [mt Emt].
  destruct (validatedTemperature_converts _ Ht) as [t Et].
  split.
  - intros Hmodel.
    assert (selectedModel (model body) = model body) as Hsel
      by (unfold selectedModel, js_or; by destruct (model body)).
    unfold chat, chat_try.
    rewrite Hm, Hf, bind_lift_Ok, Hk, Emt, bind_lift_Ok, Et, bind_lift_Ok.
    simpl negb. cbv iota.
    by rewrite Hsel, to_string_not_convertible.
  - intros Hl Hc. pose proof Hl as [Hms Hn]%models_in_bounds.
    destruct Hl as (l & Hl & _). rewrite Hl in Hc. simpl in Hc.
    unfold compare, compare_try.
    rewrite Hm, Hms, Hn, Hf, bind_lift_Ok, Hk, Emt, bind_lift_Ok, Et, bind_lift_Ok.
    simpl negb. cbv iota. rewrite Hl. simpl elements.
    by rewrite join_not_convertible.
Qed.

(** ** The models route and the two endpoints together *)

(** X19.  The model the models route reports as current is the one a
    successful chat response names when the request gave no model; when
    the environment sets no model, it is one of the models the route
    lists. *)
Theorem models_route_names_the_chat_default :
  status models_route = 200
  /\ (forall (body : Body) (r : Response),
        outcome (chat body) = Ok r ->
        is_success r = true ->
        truthy (model body) = false ->
        get_opt (json r) "model" = get_opt (json models_route) "current")
  /\ (env_truthy (env_MODEL cfg) = false ->
      get_opt (json models_route) "current"
      ∈ elements (get_opt (json models_route) "available")).
Proof.
  split; [done|]. split.
  - intros body r Hr Hs Hmodel.
    destruct (chat_success_inv body r Hr Hs) as [cr ->].
    rewrite chat_reply_model. unfold selectedModel, js_or. by rewrite Hmodel.
  - intros Hunset.
    assert (DEFAULT_MODEL = "openai/gpt-oss-20b:free") as Hdef.
    { unfold DEFAULT_MODEL, env_or. destruct (env_MODEL cfg) as [k|]; [|done].
      simpl in Hunset. apply negb_false_iff in Hunset. by rewrite Hunset. }
    change (VStr DEFAULT_MODEL ∈ VStr <$> available_models).
    rewrite Hdef. apply list_elem_of_fmap. eexists. split; [reflexivity|].
    unfold available_models.
    repeat first [apply list_elem_of_here | apply list_elem_of_further].
Qed.

Lemma single_model_join (m : JsVal) :
  truthy m = true -> join [m] ", " = to_string m.
Proof.
  intros Hm. unfold join.
  assert (forall r : result string, (r ≫= fun s => Ok s) = r) as Hid
    by (by intros []).
  destruct m; try discriminate; cbn [join_elems]; apply Hid.
Qed.

Lemma promise_all_single {A} (x : A) : promise_all [0%nat] [x] = Some [x].
Proof. reflexivity. Qed.

(** X20.  A chat request that names its model and the compare request
    with the same conversation, the same parameters and that one model
    send the same requests upstream; when the chat request succeeds, the
    only item of the compare response carries the same reply. *)
Theorem chat_agrees_with_single_model_compare (body : Body) :
  truthy (model body) = true ->
  let body' := {| messages := messages body;
                  model := VUndef;
                  models := VArr [model body];
                  max_tokens := max_tokens body;
                  temperature := temperature body |} in
  sent (chat body) = sent (compare body' [0%nat])
  /\ forall r,
       outcome (chat body) = Ok r ->
       is_success r = true ->
       exists cr,
         r = chat_reply (model body) cr
         /\ outcome (compare body' [0%nat])
            = Ok (Some (compare_reply [leg_then (model body) cr])).
Proof.
  intros Hmodel body'.
  assert (selectedModel (model body) = model body) as Hsel
    by (unfold selectedModel, js_or; by rewrite Hmodel).
  pose proof (single_model_join _ Hmodel) as Hjoin.
  assert (forall mt t s,
            not_nonempty_array (messages body) = false ->
            check_format (elements (messages body)) = Ok None ->
            env_truthy OPENROUTER_API_KEY = true ->
            validatedMaxTokens (max_tokens body) = Ok mt ->
            validatedTemperature (temperature body) = Ok t ->
            to_string (model body) = Ok s ->
            compare body' [0%nat]
            = mkNet
                (Ok (Some (compare_reply
                             [leg_item (messages body) (VNum mt) (VNum t) 0
                                (model body)])))
                (sent (callOpenRouter 0 (messages body) (model body)
                         (VNum mt) (VNum t)))) as Hcmp.
  { intros mt t s Hm Hf Hk Hmt Ht Hs.
    rewrite (compare_launched body' [0%nat] mt t s); try done;
      [|by rewrite <- Hs, <- Hjoin].
    subst body'. cbn [messages models elements imap].
    rewrite promise_all_single. f_equal.
    cbn [launch]. unfold leg, mbind, Net_bind. simpl. by rewrite app_nil_r. }
  split.
  - destruct (chat_try_cases body)
      as [Hnil|(mt & t & s & Hm & Hf & Hk & Hmt & Ht & Hs)].
    + unfold chat. rewrite try_catch_mret_sent, Hnil.
      destruct (compare_try_cases body' [0%nat])
        as [[Hnil' _]|(mt & t & s & Hm & Hms & Hn & Hf & Hk & Hmt & Ht & Hs)].
      * unfold compare. by rewrite try_catch_mret_sent.
      * unfold body' in Hs. cbn [models elements] in Hs. rewrite Hjoin in Hs.
        rewrite (Hcmp mt t s) by done. simpl. rewrite <- Hnil.
        rewrite (chat_try_caller body mt t s) by (done || by rewrite Hsel).
        by rewrite bind_mret_sent, Hsel.
    + rewrite Hsel in Hs. rewrite (Hcmp mt t s) by done.
      unfold chat. rewrite try_catch_mret_sent.
      rewrite (chat_try_caller body mt t s) by (done || by rewrite Hsel).
      by rewrite bind_mret_sent, Hsel.
  - intros r Hr Hs.
    destruct (chat_rejects_or_calls body)
      as [(r' & Hchat & Hns & _)
         |(mt & t & s & Hm & Hf & Hk & Hmt & Ht & Hstr & Hv & Hchat)];
      rewrite Hchat in Hr.
    + injection Hr as <-. congruence.
    + rewrite Hsel in *. rewrite (Hcmp mt t s) by done. simpl.
      unfold leg_item. rewrite callOpenRouter_valid by done. simpl.
      destruct (settled_as _) as [cr|e].
      * rewrite chat_tail_Ok in Hr. injection Hr as <-. by exists cr.
      * rewrite chat_tail_Throw in Hr. injection Hr as <-.
        by rewrite classify_not_success in Hs.
Qed.

(** ** The earlier server: what the handlers send and answer *)

(** X21.  The compare endpoint of the earlier server has no check on the
    messages, on the parameters or on the number of models: for a
    conversation that is a non-empty array and a non-empty list of models
    that print, it sends one request for each model, with the conversation
    and the parameters as they came (1000 and 0.7 when absent) and a
    timeout of 30000 ms. *)
Theorem earlier_compare_forwards_unvalidated
    (body : Body) (order : list nat) (ms : list JsVal) :
  not_nonempty_array (messages body) = false ->
  models body = VArr ms ->
  ms ≠ [] ->
  env_truthy OPENROUTER_API_KEY = true ->
  forallb convertible ms = true ->
  sent (Earlier.compare body order)
  = (fun m => earlier_completion_call (messages body) m
                (max_tokens body) (temperature body)) <$> ms.
Proof.
  intros Hm Hms Hne Hk Hc.
  destruct (join_convertible ms ", " Hc) as [s Hs].
  rewrite (earlier_compare_launched body order s);
    [| done | apply not_nonempty_array_spec; eauto | done | by rewrite Hms].
  simpl. by rewrite earlier_launch_sent, Hms.
Qed.

Lemma earlier_callOpenRouter_eq (i : nat) (messages model mt t : JsVal) :
  let c := earlier_completion_call messages model mt t in
  Earlier.callOpenRouter i messages model mt t
  = mkNet (match axios_post i c with
           | Fulfilled d => Earlier.extract_reply d
           | HttpError st d m =>
               Throw {| e_message := m; e_status := None; e_code := None;
                        e_data := VUndef; e_response := Some (st, d) |}
           | TransportError m code =>
               Throw {| e_message := m; e_status := None; e_code := code;
                        e_data := VUndef; e_response := None |}
           end) [c].
Proof.
  intros c. unfold Earlier.callOpenRouter, post, mbind, Net_bind.
  change {| url := OPENROUTER_URL; data := _; headers := _; timeout := 30000 |}
    with c.
  simpl. destruct (axios_post i c); simpl; done.
Qed.

Lemma earlier_extract_reply_throws (d : JsVal) (e : JsError) :
  Earlier.extract_reply d = Throw e -> exists s, e = Error s.
Proof.
  unfold Earlier.extract_reply.
  destruct (get d "choices") as [choices|e1] eqn:E1; simpl;
    [|intros [= <-]; by eapply get_throws].
  destruct (if truthy choices then get0 choices else Ok choices)
    as [first|e2] eqn:E2; simpl.
  2:{ intros [= <-]. destruct (truthy choices); [by eapply get0_throws | discriminate]. }
  destruct (truthy first); [|intros [= <-]; eauto].
  destruct (get first "message") as [m|e3] eqn:E3; simpl;
    [|intros [= <-]; by eapply get_throws].
  destruct (get m "content") as [c|e4] eqn:E4; simpl;
    [|intros [= <-]; by eapply get_throws].
  destruct (get d "usage") as [u|e5] eqn:E5; simpl;
    [done|intros [= <-]; by eapply get_throws].
Qed.

(** Once the checks of the earlier chat handler have passed, the handler
    is the one call and what the [catch] block makes of its failure. *)
Lemma earlier_chat_called (body : Body) (s : string) :
  not_nonempty_array (messages body) = false ->
  env_truthy OPENROUTER_API_KEY = true ->
  to_string (js_or (model body) (VStr earlier_DEFAULT_MODEL)) = Ok s ->
  let m := js_or (model body) (VStr earlier_DEFAULT_MODEL) in
  let c := earlier_completion_call (messages body) m
             (max_tokens body) (temperature body) in
  earlier_chat body
  = mkNet
      (match axios_post 0 c with
       | Fulfilled d =>
           match Earlier.extract_reply d with
           | Ok r => Ok (res_json (VObj [("success", VBool true);
                                         ("message", r.1);
                                         ("model", m);
                                         ("usage", r.2)]))
           | Throw e =>
               Ok (error_response 500 "Internal server error" (VStr (e_message e)))
           end
       | HttpError st d msg =>
           earlier_catch {| e_message := msg; e_status := None; e_code := None;
                            e_data := VUndef; e_response := Some (st, d) |} true
       | TransportError msg code =>
           Ok (error_response 503 "Service unavailable"
                 (VStr "Unable to reach OpenRouter API"))
       end)
      [c].
Proof.
  intros Hm Hk Hs m c. unfold earlier_chat, earlier_chat_try.
  rewrite Hm, Hk, Hs. simpl negb. cbv iota. rewrite bind_lift_Ok.
  rewrite earlier_callOpenRouter_eq. fold m. fold c.
  unfold mbind, Net_bind, has_request. simpl.
  destruct (axios_post 0 c) as [d|st d msg|msg code] eqn:Ha; simpl.
  - destruct (Earlier.extract_reply d) as [r|e] eqn:Ed; simpl.
    + done.
    + rewrite Ha. destruct (earlier_extract_reply_throws _ _ Ed) as [s' ->]. done.
  - by rewrite Ha.
  - by rewrite Ha.
Qed.

(** X22.  The chat endpoint of the earlier server calls the upstream
    service exactly when the conversation is a non-empty array, the
    credential is configured and the selected model prints; the request it
    then sends carries the conversation and the parameters as they came:
    no message is inspected and no parameter is clamped. *)
Theorem earlier_chat_forwards_unvalidated (body : Body) :
  let m := js_or (model body) (VStr earlier_DEFAULT_MODEL) in
  sent (earlier_chat body)
  = if negb (not_nonempty_array (messages body))
       && env_truthy OPENROUTER_API_KEY
       && convertible m
    then [earlier_completion_call (messages body) m
            (max_tokens body) (temperature body)]
    else [].
Proof.
  intros m.
  destruct (not_nonempty_array (messages body)) eqn:Hm;
    [unfold earlier_chat, earlier_chat_try; by rewrite Hm|].
  destruct (env_truthy OPENROUTER_API_KEY) eqn:Hk;
    [|unfold earlier_chat, earlier_chat_try; by rewrite Hm, Hk].
  destruct (convertible m) eqn:Hc; simpl.
  - destruct (to_string_convertible m Hc) as [s Hs].
    by rewrite (earlier_chat_called body s).
  - unfold earlier_chat, earlier_chat_try. rewrite Hm, Hk. simpl negb. cbv iota.
    fold m. by rewrite (to_string_not_convertible m Hc).
Qed.

(** X23.  When the upstream service answers a chat request of the earlier
    server with an error status and a payload that is not null, the
    endpoint answers with that status: with a text of its own for 401,
    402, 429 and 404, and as an upstream error for any other status, 400
    included. *)
Theorem earlier_chat_passes_upstream_status_on
    (body : Body) (st : Z) (d : JsVal) (msg : string) :
  not_nonempty_array (messages body) = false ->
  env_truthy OPENROUTER_API_KEY = true ->
  convertible (model body) = true ->
  (forall c, axios_post 0 c = HttpError st d msg) ->
  nullish d = false ->
  exists c r,
    earlier_chat body = mkNet (Ok r) [c]
    /\ status r = st
    /\ error_kind r = Some (kind_of_status earlier_status_table st).
Proof.
  intros Hm Hk Hmodel Hup Hd.
  destruct (to_string_convertible (js_or (model body) (VStr earlier_DEFAULT_MODEL)))
    as [s Hs]; [unfold js_or; by destruct (truthy _)|].
  rewrite (earlier_chat_called body s), Hup by done.
  unfold earlier_catch, earlier_status_table, kind_of_status. simpl e_response.
  cbv beta iota.
  destruct (st =? 401) eqn:E1;
    [apply Z.eqb_eq in E1 as ->; eexists _, _; split; [reflexivity | done]|].
  destruct (st =? 402) eqn:E2;
    [apply Z.eqb_eq in E2 as ->; eexists _, _; split; [reflexivity | done]|].
  destruct (st =? 429) eqn:E3;
    [apply Z.eqb_eq in E3 as ->; eexists _, _; split; [reflexivity | done]|].
  destruct (st =? 404) eqn:E4;
    [apply Z.eqb_eq in E4 as ->; eexists _, _; split; [reflexivity | done]|].
  rewrite get_get_opt by done. eexists _, _. split; [reflexivity | done].
Qed.

(** X24.  On an error status outside 401, 402, 429 and 404 with a null
    payload, the [catch] block of the earlier chat handler raises while it
    reads the message of the payload, so the handler sends no response;
    [server.js] answers the same upstream failure with its status. *)
Theorem earlier_chat_raises_on_null_payload
    (body : Body) (st : Z) (d : JsVal) (msg : string) :
  not_nonempty_array (messages body) = false ->
  env_truthy OPENROUTER_API_KEY = true ->
  convertible (model body) = true ->
  (forall c, axios_post 0 c = HttpError st d msg) ->
  nullish d = true ->
  kind_of_status earlier_status_table st = UpstreamError ->
  (exists c s, earlier_chat body = mkNet (Throw (TypeError s)) [c])
  /\ (valid_conversation (messages body) = true ->
      convertible (max_tokens body) = true ->
      convertible (temperature body) = true ->
      st ≠ 0 ->
      exists c, chat body = mkNet (Ok (classify_status st d)) [c]
                /\ status (classify_status st d) = st).
Proof.
  intros Hm Hk Hmodel Hup Hd Hst. split.
  - destruct (to_string_convertible (js_or (model body) (VStr earlier_DEFAULT_MODEL)))
      as [s Hs]; [unfold js_or; by destruct (truthy _)|].
    rewrite (earlier_chat_called body s), Hup by done.
    unfold earlier_catch. simpl e_response. cbv beta iota.
    unfold earlier_status_table, kind_of_status in Hst.
    destruct (st =? 401); [done|]. destruct (st =? 402); [done|].
    destruct (st =? 429); [done|]. destruct (st =? 404); [done|].
    destruct d; try discriminate; by eexists _, _.
  - intros Hv Hmt Ht Hnz.
    destruct (chat_on_http_error body st d msg) as [c Hc]; try done.
    { by destruct d. }
    exists c. split; [done | apply classify_status_kind].
Qed.

(** X25.  When the call of a chat request of the earlier server fails
    without an answer, the endpoint answers 503 whatever the code of the
    failure: a timeout is not told apart. *)
Theorem earlier_chat_transport_is_unavailable
    (body : Body) (msg : string) (code : option string) :
  not_nonempty_array (messages body) = false ->
  env_truthy OPENROUTER_API_KEY = true ->
  convertible (model body) = true ->
  (forall c, axios_post 0 c = TransportError msg code) ->
  exists c,
    earlier_chat body
    = mkNet (Ok (error_response 503 "Service unavailable"
                   (VStr "Unable to reach OpenRouter API"))) [c].
Proof.
  intros Hm Hk Hmodel Hup.
  destruct (to_string_convertible (js_or (model body) (VStr earlier_DEFAULT_MODEL)))
    as [s Hs]; [unfold js_or; by destruct (truthy _)|].
  rewrite (earlier_chat_called body s), Hup by done. by eexists.
Qed.

(** ** The two versions of the caller *)

(** X26.  The test on the payload and the reply taken from it are the
    same in the two versions of the caller: the caller of [server.js]
    returns or throws exactly when the earlier one does, with the same
    message and usage, and only adds the finish reason. *)
Theorem extract_reply_extends_earlier (d : JsVal) :
  Earlier.extract_reply d
  = match extract_reply d with
    | Ok cr => Ok (message cr, usage cr)
    | Throw e => Throw e
    end.
Proof.
  unfold Earlier.extract_reply, extract_reply.
  destruct (get d "choices") as [choices|e]; simpl; [|done].
  destruct (if truthy choices then get0 choices else Ok choices)
    as [first|e]; simpl; [|done].
  destruct (truthy first) eqn:Hf; [|done].
  destruct (get first "message") as [m|e]; simpl; [|done].
  destruct (get m "content") as [c|e]; simpl; [|done].
  destruct (get d "usage") as [u|e]; simpl; [|done].
  by rewrite (get_get_opt first) by (by apply truthy_not_nullish).
Qed.

(** X27.  When the call of a compare leg is answered with an error status
    and a payload whose error message is a non-empty string, the item of
    the leg carries that message in both versions of the server; the item
    of [server.js] also carries the status as [error_type], the earlier one
    has no such field. *)
Theorem leg_reports_upstream_message
    (i : nat) (messages mt t model : JsVal) (st : Z) (d : JsVal) (m s : string) :
  (forall c, axios_post i c = HttpError st d m) ->
  get_opt (get_opt d "error") "message" = VStr s ->
  s ≠ "" ->
  Earlier.leg_item messages mt t i model
  = VObj [("success", VBool false); ("model", model);
          ("message", VStr s); ("error", VBool true)]
  /\ (valid_conversation messages = true ->
      st ≠ 0 ->
      leg_item messages mt t i model
      = VObj [("success", VBool false); ("model", model);
              ("message", VStr s); ("error", VBool true);
              ("error_type", VNum (num_of_Z st))]).
Proof.
  intros Hup Hmsg Hs.
  assert (truthy (VStr s) = true) as Ht
    by (simpl; apply negb_true_iff; by apply String.eqb_neq).
  split.
  - unfold Earlier.leg_item. rewrite earlier_callOpenRouter_eq, Hup. simpl.
    unfold Earlier.leg_message, js_or. simpl e_response. cbv beta iota.
    by rewrite Hmsg, !Ht.
  - intros Hv Hst. unfold leg_item.
    rewrite callOpenRouter_valid, Hup, settled_as_HttpError, Hmsg by done.
    unfold js_or at 1. rewrite Ht. simpl.
    unfold leg_catch, leg_message, leg_error_type, js_or. simpl e_message.
    simpl e_status. by rewrite Ht, status_truthy.
Qed.

End Coverage.

(** X18.  The item of a leg in the response of the compare endpoint
    depends on the surroundings only through the configuration and the way
    the call of that leg settles: it is the same whatever the calls of the
    other legs do. *)
Theorem compare_item_depends_on_its_own_call
    `{Engine} (W1 W2 : Environment) (body : Body) (order1 order2 : list nat)
    (r1 r2 : Response) (i : nat) :
  @cfg W1 = @cfg W2 ->
  (forall c, @axios_post W1 i c = @axios_post W2 i c) ->
  outcome (@compare _ W1 body order1) = Ok (Some r1) ->
  outcome (@compare _ W2 body order2) = Ok (Some r2) ->
  is_success r1 = true ->
  is_success r2 = true ->
  elements (get_opt (json r1) "results") !! i
  = elements (get_opt (json r2) "results") !! i.
Proof.
  intros Hcfg Hpost Hr1 Hr2 Hs1 Hs2.
  assert (forall messages m mt t,
            @leg_item _ W1 messages mt t i m = @leg_item _ W2 messages mt t i m)
    as Hleg.
  { intros messages m mt t. unfold leg_item. f_equal.
    unfold callOpenRouter, post, chat_completion_call, request_headers, bearer,
      OPENROUTER_API_KEY.
    rewrite Hcfg. by rewrite Hpost. }
  destruct (@compare_rejects_or_launches _ W1 body)
    as [(r & Hcmp & Hs & _)|(mt & t & s & _ & _ & _ & _ & _ & Hmt & Ht & _ & Hcmp)];
    rewrite Hcmp in Hr1; simpl in Hr1.
  { injection Hr1 as <-. congruence. }
  destruct (@compare_rejects_or_launches _ W2 body)
    as [(r & Hcmp' & Hs & _)
       |(mt' & t' & s' & _ & _ & _ & _ & _ & Hmt' & Ht' & _ & Hcmp')];
    rewrite Hcmp' in Hr2; simpl in Hr2.
  { injection Hr2 as <-. congruence. }
  assert (mt' = mt) as -> by congruence.
  assert (t' = t) as -> by congruence.
  destruct (promise_all order1 _) as [l1|] eqn:E1; [|done].
  destruct (promise_all order2 _) as [l2|] eqn:E2; [|done].
  apply promise_all_Some in E1, E2. simpl in Hr1, Hr2.
  injection Hr1 as <-. injection Hr2 as <-. subst l1 l2. simpl.
  rewrite !list_lookup_imap. destruct (elements (models body) !! i); simpl; [|done].
  by rewrite Hleg.
Qed.

(** * The further properties at the sample requests *)

Lemma caller_errors_carry_no_response_witness :
  let e := {| e_message := "Slow down"; e_status := Some 429; e_code := None;
              e_data := VObj [("error", VObj [("message", VStr "Slow down")])];
              e_response := None |} in
  outcome (@callOpenRouter sample_engine limited_world 0 (messages sample_body)
             (VStr "x/y") VUndef VUndef) = Throw e
  /\ e_response e = None.
Proof.
  intros e. split; [reflexivity|].
  apply (@caller_errors_carry_no_response sample_engine limited_world 0
           (messages sample_body) (VStr "x/y") VUndef VUndef e).
  reflexivity.
Defined.

Lemma upstream_calls_carry_credential_witness :
  let c := @chat_completion_call sample_world (messages sample_body)
             (VStr "openai/gpt-oss-20b:free") (VNum (num_of_Z 4000))
             (VNum (num_of_Z 2)) in
  (c ∈ sent (@chat sample_engine sample_world sample_body)
   \/ c ∈ sent (@compare sample_engine sample_world sample_body [2; 0; 1]%nat))
  /\ exists k, env_OPENROUTER_API_KEY (@cfg sample_world) = Some k /\ k ≠ "".
Proof.
  intros c.
  assert (c ∈ sent (@chat sample_engine sample_world sample_body)
          \/ c ∈ sent (@compare sample_engine sample_world sample_body [2; 0; 1]%nat))
    as Hc by (left; apply list_elem_of_here).
  split; [exact Hc|].
  destruct (@upstream_calls_carry_credential sample_engine sample_world
              sample_body [2; 0; 1]%nat c Hc) as (k & Hk & Hne & _).
  exists k. split; [exact Hk | exact Hne].
Defined.

Lemma sent_max_tokens_in_range_witness :
  let c := @chat_completion_call sample_world (messages text_body)
             (VStr "openai/gpt-4o") (VNum (num_of_Z 1000)) (VNum NaN) in
  (c ∈ sent (@chat sample_engine sample_world text_body)
   \/ c ∈ sent (@compare sample_engine sample_world text_body [0]%nat))
  /\ exists r, req_max_tokens (data c) = VNum (Fin r) /\ (0 < r <= inject_Z 4000)%Q.
Proof.
  intros c.
  assert (c ∈ sent (@chat sample_engine sample_world text_body)
          \/ c ∈ sent (@compare sample_engine sample_world text_body [0]%nat))
    as Hc by (right; apply list_elem_of_here).
  split; [exact Hc|].
  apply (@sent_max_tokens_in_range sample_engine sample_world text_body
           [0]%nat c Hc).
Defined.

Lemma sent_temperature_in_range_witness :
  let c := @chat_completion_call sample_world (messages text_body)
             (VStr "openai/gpt-4o") (VNum (num_of_Z 1000)) (VNum NaN) in
  (c ∈ sent (@chat sample_engine sample_world text_body)
   \/ c ∈ sent (@compare sample_engine sample_world text_body [0]%nat))
  /\ ((req_temperature (data c) = VNum NaN
       /\ temperature text_body ≠ VUndef
       /\ @to_number sample_engine (temperature text_body) = Ok NaN)
      \/ exists r, req_temperature (data c) = VNum (Fin r) /\ (0 <= r <= 2)%Q).
Proof.
  intros c.
  assert (c ∈ sent (@chat sample_engine sample_world text_body)
          \/ c ∈ sent (@compare sample_engine sample_world text_body [0]%nat))
    as Hc by (right; apply list_elem_of_here).
  split; [exact Hc|].
  apply (@sent_temperature_in_range sample_engine sample_world text_body
           [0]%nat c Hc).
Defined.

Lemma chat_passes_upstream_status_on_witness :
  let d := VObj [("error", VObj [("message", VStr "Slow down")])] in
  valid_conversation (messages sample_body) = true
  /\ env_truthy (@OPENROUTER_API_KEY limited_world) = true
  /\ (forall c, @axios_post limited_world 0%nat c
                = HttpError 429 d "Request failed with status code 429")
  /\ exists c,
       @chat sample_engine limited_world sample_body
       = mkNet (Ok (classify_status 429 d)) [c].
Proof.
  intros d. do 2 (split; [reflexivity|]). split; [intros c; reflexivity|].
  destruct (@chat_passes_upstream_status_on sample_engine limited_world sample_body
              429 d "Request failed with status code 429")
    as (c & Hc & _); try reflexivity; [lia|].
  exists c. exact Hc.
Defined.

Lemma chat_reports_transport_failure_witness :
  valid_conversation (messages sample_body) = true
  /\ env_truthy (@OPENROUTER_API_KEY timeout_world) = true
  /\ (forall c, @axios_post timeout_world 0%nat c
                = TransportError "timeout of 60000ms exceeded" (Some "ECONNABORTED"))
  /\ exists c,
       @chat sample_engine timeout_world sample_body
       = mkNet (Ok (error_response 504 "Gateway timeout"
                      (VStr "Request to OpenRouter API timed out"))) [c].
Proof.
  do 2 (split; [reflexivity|]). split; [intros c; reflexivity|].
  destruct (@chat_reports_transport_failure sample_engine timeout_world sample_body
              "timeout of 60000ms exceeded" (Some "ECONNABORTED"))
    as (c & r & Hc & Hr); try reflexivity.
  exists c. rewrite Hc, Hr. reflexivity.
Defined.

Lemma unprintable_upstream_message_loses_status_witness :
  let d := VObj [("error",
                  VObj [("message", VObj [("toString", VNum (num_of_Z 1))])])] in
  valid_conversation (messages sample_body) = true
  /\ (forall c, @axios_post opaque_world 0%nat c
                = HttpError 500 d "Request failed with status code 500")
  /\ convertible (get_opt (get_opt d "error") "message") = false
  /\ exists c,
       @chat sample_engine opaque_world sample_body
       = mkNet (Ok (error_response 500 "Internal server error"
                      (VStr "Cannot convert object to primitive value"))) [c].
Proof.
  intros d. split; [reflexivity|]. split; [intros c; reflexivity|].
  split; [reflexivity|].
  destruct (@unprintable_upstream_message_loses_status sample_engine opaque_world
              sample_body 500 d "Request failed with status code 500")
    as (mt & t & c & _ & Hc); try reflexivity.
  exists c. exact Hc.
Defined.

Lemma chat_success_comes_from_upstream_witness :
  let r := chat_reply (VStr "openai/gpt-oss-20b:free")
             {| message := VStr "hello";
                usage := VObj [("total_tokens", VNum (num_of_Z 12))];
                finish_reason := VStr "stop" |} in
  outcome (@chat sample_engine sample_world sample_body) = Ok r
  /\ is_success r = true
  /\ exists c, sent (@chat sample_engine sample_world sample_body) = [c]
               /\ @axios_post sample_world 0%nat c = Fulfilled sample_reply.
Proof.
  intros r. split; [reflexivity|]. split; [reflexivity|].
  destruct (@chat_success_comes_from_upstream sample_engine sample_world
              sample_body r) as (c & d & cr & Hs & Ha & _); try reflexivity.
  exists c. split; [exact Hs|]. injection Hs as <-. reflexivity.
Defined.

Lemma responses_are_success_or_labelled_witness :
  let r := error_response 429 "Rate limit exceeded"
             (VStr "Too many requests to OpenRouter API") in
  (outcome (@chat sample_engine limited_world sample_body) = Ok r
   \/ outcome (@compare sample_engine limited_world sample_body []) = Ok (Some r))
  /\ exists k, error_kind r = Some k.
Proof.
  intros r.
  assert (outcome (@chat sample_engine limited_world sample_body) = Ok r
          \/ outcome (@compare sample_engine limited_world sample_body [])
             = Ok (Some r)) as Hr by (left; reflexivity).
  split; [exact Hr|].
  apply (@responses_are_success_or_labelled sample_engine limited_world
           sample_body [] r Hr).
Defined.

Lemma compare_waits_for_every_leg_witness :
  accepted_conversation (messages sample_body) = true
  /\ models sample_body = VArr sample_models
  /\ (1 <= length sample_models <= 5)%nat
  /\ env_truthy (@OPENROUTER_API_KEY sample_world) = true
  /\ (exists j, (j < length sample_models)%nat /\ j ∉ [2; 0]%nat)
  /\ outcome (@compare sample_engine sample_world sample_body [2; 0]%nat) = Ok None.
Proof.
  assert ((1 <= length sample_models <= 5)%nat) as Hlen by (simpl; lia).
  assert (exists j, (j < length sample_models)%nat /\ j ∉ [2; 0]%nat) as Hj.
  { exists 1%nat. split; [simpl; lia|].
    intros Hin. apply elem_of_cons in Hin as [Hin|Hin]; [discriminate|].
    apply elem_of_cons in Hin as [Hin|Hin]; [discriminate|].
    by apply elem_of_nil in Hin. }
  do 2 (split; [reflexivity|]). split; [exact Hlen|].
  split; [reflexivity|]. split; [exact Hj|].
  apply (@compare_waits_for_every_leg sample_engine sample_world sample_body
           [2; 0]%nat sample_models); try reflexivity; [exact Hlen | exact Hj].
Defined.

Lemma unknown_role_passes_the_handlers_witness :
  accepted_conversation (messages bot_body) = true
  /\ valid_conversation (messages bot_body) = false
  /\ env_truthy (@OPENROUTER_API_KEY sample_world) = true
  /\ @chat sample_engine sample_world bot_body
     = mkNet (Ok (error_response 500 "Internal server error"
                    (VStr "Message role must be user, assistant, or system"))) [].
Proof.
  do 3 (split; [reflexivity|]).
  apply (@unknown_role_passes_the_handlers sample_engine sample_world bot_body
           [0]%nat [VStr "openai/gpt-4o"]); reflexivity.
Defined.

Lemma null_message_is_internal_error_witness :
  messages null_message_body = VArr ([msg "user" "hi"] ++ VNull :: [])
  /\ forallb has_role_and_content [msg "user" "hi"] = true
  /\ nullish VNull = true
  /\ exists s,
       @chat sample_engine sample_world null_message_body
       = mkNet (Ok (error_response 500 "Internal server error" (VStr s))) [].
Proof.
  do 3 (split; [reflexivity|]).
  destruct (@null_message_is_internal_error sample_engine sample_world
              null_message_body [] [msg "user" "hi"] [] VNull)
    as (s & _ & Hchat & _); try reflexivity.
  exists s. exact Hchat.
Defined.

Lemma unprintable_model_is_internal_error_witness :
  accepted_conversation (messages unprintable_body) = true
  /\ env_truthy (@OPENROUTER_API_KEY sample_world) = true
  /\ convertible (model unprintable_body) = false
  /\ @chat sample_engine sample_world unprintable_body
     = mkNet (Ok (error_response 500 "Internal server error"
                    (VStr "Cannot convert object to primitive value"))) [].
Proof.
  do 3 (split; [reflexivity|]).
  apply (@unprintable_model_is_internal_error sample_engine sample_world
           unprintable_body []); reflexivity.
Defined.

Lemma compare_item_depends_on_its_own_call_witness :
  @cfg sample_world = @cfg answering_world
  /\ (forall c, @axios_post sample_world 0%nat c = @axios_post answering_world 0%nat c)
  /\ exists r1 r2,
       outcome (@compare sample_engine sample_world sample_body [2; 0; 1]%nat)
       = Ok (Some r1)
       /\ outcome (@compare sample_engine answering_world sample_body [0; 1; 2]%nat)
          = Ok (Some r2)
       /\ elements (get_opt (json r1) "results") !! 0%nat
          = elements (get_opt (json r2) "results") !! 0%nat.
Proof.
  split; [reflexivity|]. split; [intros c; reflexivity|].
  eexists _, _. split; [reflexivity|]. split; [reflexivity|].
  apply (@compare_item_depends_on_its_own_call sample_engine sample_world
           answering_world sample_body [2; 0; 1]%nat [0; 1; 2]%nat);
    reflexivity.
Defined.

Lemma chat_agrees_with_single_model_compare_witness :
  let body' := {| messages := messages named_body;
                  model := VUndef;
                  models := VArr [model named_body];
                  max_tokens := max_tokens named_body;
                  temperature := temperature named_body |} in
  truthy (model named_body) = true
  /\ sent (@chat sample_engine sample_world named_body)
     = sent (@compare sample_engine sample_world body' [0%nat]).
Proof.
  intros body'. split; [reflexivity|].
  apply (@chat_agrees_with_single_model_compare sample_engine sample_world
           named_body).
  reflexivity.
Defined.

Lemma earlier_compare_forwards_unvalidated_witness :
  not_nonempty_array (messages six_models_body) = false
  /\ models six_models_body = VArr (VStr <$> ["a"; "b"; "c"; "d"; "e"; "f"])
  /\ env_truthy (@OPENROUTER_API_KEY sample_world) = true
  /\ length (sent (@Earlier.compare sample_engine sample_world six_models_body []))
     = 6%nat.
Proof.
  do 3 (split; [reflexivity|]).
  rewrite (@earlier_compare_forwards_unvalidated sample_engine sample_world
             six_models_body [] (VStr <$> ["a"; "b"; "c"; "d"; "e"; "f"]));
    [reflexivity | reflexivity | reflexivity | discriminate
    | reflexivity | reflexivity].
Defined.

Lemma earlier_chat_passes_upstream_status_on_witness :
  let d := VObj [("error", VObj [("message", VStr "Bad input")])] in
  not_nonempty_array (messages bot_body) = false
  /\ env_truthy (@OPENROUTER_API_KEY refusing_world) = true
  /\ (forall c, @axios_post refusing_world 0%nat c
                = HttpError 400 d "Request failed with status code 400")
  /\ nullish d = false
  /\ exists c r,
       @earlier_chat sample_engine refusing_world bot_body = mkNet (Ok r) [c]
       /\ status r = 400
       /\ error_kind r = Some UpstreamError.
Proof.
  intros d. do 2 (split; [reflexivity|]). split; [intros c; reflexivity|].
  split; [reflexivity|].
  apply (@earlier_chat_passes_upstream_status_on sample_engine refusing_world
           bot_body 400 d "Request failed with status code 400");
    reflexivity.
Defined.

Lemma earlier_chat_raises_on_null_payload_witness :
  not_nonempty_array (messages sample_body) = false
  /\ env_truthy (@OPENROUTER_API_KEY bare_world) = true
  /\ (forall c, @axios_post bare_world 0%nat c
                = HttpError 502 VNull "Request failed with status code 502")
  /\ kind_of_status earlier_status_table 502 = UpstreamError
  /\ (exists c s,
        @earlier_chat sample_engine bare_world sample_body
        = mkNet (Throw (TypeError s)) [c])
  /\ exists c,
       @chat sample_engine bare_world sample_body
       = mkNet (Ok (classify_status 502 VNull)) [c].
Proof.
  do 2 (split; [reflexivity|]). split; [intros c; reflexivity|].
  split; [reflexivity|].
  destruct (@earlier_chat_raises_on_null_payload sample_engine bare_world
              sample_body 502 VNull "Request failed with status code 502")
    as [Hearlier Hnow]; try reflexivity.
  split; [exact Hearlier|].
  destruct Hnow as (c & Hc & _); try reflexivity; [lia|].
  exists c. exact Hc.
Defined.

Lemma earlier_chat_transport_is_unavailable_witness :
  not_nonempty_array (messages sample_body) = false
  /\ env_truthy (@OPENROUTER_API_KEY timeout_world) = true
  /\ (forall c, @axios_post timeout_world 0%nat c
                = TransportError "timeout of 60000ms exceeded" (Some "ECONNABORTED"))
  /\ exists c,
       @earlier_chat sample_engine timeout_world sample_body
       = mkNet (Ok (error_response 503 "Service unavailable"
                      (VStr "Unable to reach OpenRouter API"))) [c].
Proof.
  do 2 (split; [reflexivity|]). split; [intros c; reflexivity|].
  apply (@earlier_chat_transport_is_unavailable sample_engine timeout_world
           sample_body "timeout of 60000ms exceeded" (Some "ECONNABORTED"));
    reflexivity.
Defined.

Lemma leg_reports_upstream_message_witness :
  let d := VObj [("error", VObj [("message", VStr "No such model")])] in
  (forall c, @axios_post sample_world 2%nat c
             = HttpError 404 d "Request failed with status code 404")
  /\ get_opt (get_opt d "error") "message" = VStr "No such model"
  /\ "No such model" ≠ ""
  /\ @Earlier.leg_item sample_world (messages sample_body)
       VUndef VUndef 2 (VStr "x/y")
     = VObj [("success", VBool false); ("model", VStr "x/y");
             ("message", VStr "No such model"); ("error", VBool true)].
Proof.
  intros d. split; [intros c; reflexivity|]. split; [reflexivity|].
  split; [discriminate|].
  apply (@leg_reports_upstream_message sample_engine sample_world 2
           (messages sample_body) VUndef VUndef (VStr "x/y") 404 d
           "Request failed with status code 404" "No such model");
    [intros c; reflexivity | reflexivity | discriminate].
Defined.
